(** * Sub-Saharan Africa Crop Forecast Viewer: embedding of [app.py] and
    [visualizations.py].

    The Streamlit script is embedded as a state-and-error monad over a
    [world] (session state, render caches, the elements put on screen);
    pandas frames are lists of rows, a boolean-mask selection is [filter],
    and floating point columns are taken as exact rationals ([Q]), a null
    (NaN) being [None] where the source handles nulls. *)

From Stdlib Require Import QArith.
From stdpp Require Import base decidable option list strings numbers sorting gmap.

Local Open Scope string_scope.
Local Open Scope list_scope.
Local Open Scope Z_scope.

#[global] Instance Q_eq_dec : EqDecision Q.
Proof. solve_decision. Defined.

(** ** Data model: one record per row of each loaded frame *)

(** Modelled from the spec: the columns of the shape layer
    gscd_shape_simplified.gpkg, a data file outside the sources.  A Region
    has a unique [fnid], the names [admin0], [admin1], [admin2] and a
    centroid; these are the rows of [gdf]. *)
Module Region.
Record row := mk {
  fnid : string;
  admin0 : string;
  admin1 : string;
  admin2 : string;
  centroid_lat : Q;
  centroid_lon : Q }.
#[global] Instance eq_dec : EqDecision row.
Proof. solve_decision. Defined.
End Region.

(** Modelled from the spec: the columns of viewer_yield.parquet, a data
    file outside the sources; by the docstring of [load_data] they are only
    fnid, year and yield.  These are the rows of [viewer_yield]. *)
Module YieldObs.
Record row := mk {
  fnid : string;
  year : Z;
  yield_obs : Q }.
#[global] Instance eq_dec : EqDecision row.
Proof. solve_decision. Defined.
End YieldObs.

(** Modelled from the spec: the columns of cape_eo_formatted.parquet, a
    data file outside the sources: region id, date and one value per EO
    variable of [eo_vars].  These are the rows of [cape_eo]. *)
Module EOObs.
Record row := mk {
  fnid : string;
  date : Z;
  ndvi : Q; prcp : Q; pdry : Q; etos : Q; tavg : Q; gdd : Q; kdd : Q }.
#[global] Instance eq_dec : EqDecision row.
Proof. solve_decision. Defined.
End EOObs.

(** Modelled from the spec: the columns of
    viewer_yield_fcst_error.parquet, a data file outside the sources: the
    eight key columns the script names and the three metrics of
    [label_map].  These are the rows of [yield_fcst].  [year] is the one
    column the script drops nulls from, so it is nullable here. *)
Module Forecast.
Record row := mk {
  fnid : string;
  country : string;
  admin1 : string;
  admin2 : string;
  season : string;
  year : option Z;
  model : string;
  lead : Z;
  yield_fcst : Q;
  yield_fcst_error : Q;
  yield_fcst_perror : Q }.
#[global] Instance eq_dec : EqDecision row.
Proof. solve_decision. Defined.

(** The columns that are not selector keys, in frame order: what
    [variables] of the Historical Forecasts page evaluates to. *)
Definition value_columns : list string :=
  ["yield_fcst"; "yield_fcst_error"; "yield_fcst_perror"].

(** [df[name]] restricted to the value columns, the only names the page
    passes; [None] is a KeyError.  A key column, which the frame would
    also return, is not covered. *)
Definition column (name : string) : option (row → Q) :=
  if decide (name = "yield_fcst") then Some yield_fcst
  else if decide (name = "yield_fcst_error") then Some yield_fcst_error
  else if decide (name = "yield_fcst_perror") then Some yield_fcst_perror
  else None.
End Forecast.

(** Modelled from the spec: the properties of one feature of
    gscd_shape.geojson, a data file outside the sources: the region id and
    the three names the tooltip shows. *)
Module Feature.
Record properties := mk {
  fnid : string;
  admin0 : string;
  admin1 : string;
  admin2 : string }.
#[global] Instance eq_dec : EqDecision properties.
Proof. solve_decision. Defined.
End Feature.

Definition GeoJSON := list Feature.properties.

(** ** Python and pandas primitives used by the script *)

Inductive exn :=
| IndexError (msg : string)
| KeyError (key : string)
| ValueError (msg : string).

Inductive result (A : Type) :=
| Ok (a : A)
| Raised (e : exn).
Arguments Ok {A} a.
Arguments Raised {A} e.

(** [Series.unique()]: distinct values in order of first appearance. *)
Fixpoint unique {A} `{EqDecision A} (l : list A) : list A :=
  match l with
  | [] => []
  | x :: l' => x :: filter (λ y, y ≠ x) (unique l')
  end.

(** [sorted(...)] on strings (code point order) and on integers. *)
Definition str_le (a b : string) : Prop := String.leb a b = true.
#[global] Instance str_le_dec : RelDecision str_le.
Proof. intros a b. unfold str_le. apply _. Defined.

Definition sorted_str (l : list string) : list string := merge_sort str_le l.
Definition sorted_int (l : list Z) : list Z := merge_sort Z.le l.

(** [df.iloc[0]]: the first row, IndexError on an empty frame. *)
Definition iloc0 {A} (df : list A) : result A :=
  match df with
  | r :: _ => Ok r
  | [] => Raised (IndexError "single positional indexer is out-of-bounds")
  end.

(** [Series.min()] and [Series.max()] of an integer-valued column; NaN
    ([None]) on an empty series. *)
Definition Series_min (s : list Z) : option Z :=
  match s with
  | [] => None
  | y :: s' => Some (foldr Z.min y s')
  end.

Definition Series_max (s : list Z) : option Z :=
  match s with
  | [] => None
  | y :: s' => Some (foldr Z.max y s')
  end.

(** [int(x)]: ValueError on NaN. *)
Definition int (x : option Z) : result Z :=
  match x with
  | Some z => Ok z
  | None => Raised (ValueError "cannot convert float NaN to integer")
  end.

(** [range(a, b)] as a list. *)
Definition range (a b : Z) : list Z := seqZ a (b - a).

(** [Series.mean()] of a column without nulls, idealised: the sum over the
    count in exact arithmetic, NaN ([None]) on an empty series.  The
    float64 rounding of the pandas mean and its skipping of null values
    are not modelled, so nothing below is stated about the value of a
    mean, only about the rows and the column it is taken over. *)
Definition Series_sum (s : list Q) : Q := foldr Qplus 0%Q s.

Definition Series_mean (s : list Q) : option Q :=
  match s with
  | [] => None
  | _ :: _ => Some (Series_sum s / inject_Z (Z.of_nat (length s)))%Q
  end.

(** ** visualizations.py *)

Module viz.

(** A [go.Choroplethmapbox] trace, by its keyword arguments. *)
Record Choroplethmapbox := mkTrace {
  trace_geojson : GeoJSON;
  locations : list string;
  z : list Q;
  featureidkey : string;
  colorscale : string;
  marker_line_width : Q;
  colorbar_title : string;
  text : list string;
  hovertemplate : string }.

Record Layout := mkLayout {
  mapbox_style : string;
  mapbox_zoom : Z;
  mapbox_center_lat : option Q;
  mapbox_center_lon : option Q;
  margin : Z * Z * Z * Z }.

(** A [go.Figure]: its traces (one colored layer each) and its layout;
    [layout] is [None] until [update_layout] is called. *)
Record Figure := mkFigure {
  data : list Choroplethmapbox;
  layout : option Layout }.

(** A [folium.Map] with its GeoJson layer and tooltip fields. *)
Record Map := mkMap {
  location : Z * Z;
  zoom_start : Z;
  layer : GeoJSON;
  tooltip_fields : list string;
  tooltip_aliases : list string }.

Definition build_base_map (geojson : GeoJSON) : Map :=
  {| location := (0, 20); zoom_start := 3; layer := geojson;
     tooltip_fields := ["admin0"; "admin1"; "admin2"];
     tooltip_aliases := ["Country: "; "admin1: "; "admin2:"] |}.

(** A matplotlib figure holding one seaborn line plot, by the arguments
    of the [sns.lineplot] call and the axis decorations. *)
Inductive frame :=
| yield_frame (rows : list YieldObs.row)
| eo_frame (rows : list EOObs.row).

Record LinePlot := mkLinePlot {
  plot_data : frame;
  plot_x : string;
  plot_y : string;
  marker : string;
  xlabel : string;
  ylabel : string;
  title : string }.

Definition plot_yield_obs (crop_yield : list YieldObs.row) : LinePlot :=
  {| plot_data := yield_frame crop_yield; plot_x := "year";
     plot_y := "yield_obs"; marker := "o"; xlabel := "Year";
     ylabel := "Yield (t/ha)"; title := "Maize Yield Over Time" |}.

Definition plot_eo_var (eo_df : list EOObs.row) (selected_eo : string)
  : LinePlot :=
  {| plot_data := eo_frame eo_df; plot_x := "date"; plot_y := selected_eo;
     marker := "o"; xlabel := "Year"; ylabel := selected_eo;
     title := selected_eo ++ " Over Time (Pre-Harvest)" |}.

Definition label_map : gmap string (string * string) :=
  <["yield_fcst" := ("Forecast Yield", "t/ha")]>
  (<["yield_fcst_error" := ("Forecast Error", "t/ha")]>
  (<["yield_fcst_perror" := ("Percent Error", "%")]> ∅)).

(** The arguments of [create_map].  A selector is [None] when its
    selectbox had no option to offer (Python's None). *)
Record args := mkArgs {
  yield_fcst : list Forecast.row;
  geojson : GeoJSON;
  _gdf : list Region.row;
  selected_variable : option string;
  country_fnids : list string;
  selected_country : option string;
  selected_season : option string;
  selected_year : option Z;
  selected_model : option string;
  selected_lead : option Z }.

(** The predicate of the [query] call: all five comparisons joined by
    [&].  A null year, like a None selector, compares unequal. *)
Definition selection (a : args) (r : Forecast.row) : Prop :=
  Forecast.fnid r ∈ country_fnids a
  ∧ Some (Forecast.season r) = selected_season a
  ∧ (is_Some (Forecast.year r) ∧ Forecast.year r = selected_year a)
  ∧ Some (Forecast.model r) = selected_model a
  ∧ Some (Forecast.lead r) = selected_lead a.

#[global] Instance selection_dec a r : Decision (selection a r).
Proof. unfold selection. apply _. Defined.

Definition df_filt (a : args) : list Forecast.row :=
  filter (selection a) (yield_fcst a).

(** [df_filt[selected_variable]]. *)
Definition getitem (df : list Forecast.row) (name : option string)
  : result (list Q) :=
  match name ≫= Forecast.column with
  | Some col => Ok (col <$> df)
  | None => Raised (KeyError (default "None" name))
  end.

Definition create_map (a : args) : result Figure :=
  let '(var_label, var_unit) :=
    match selected_variable a with
    | Some v => default (v, "") (label_map !! v)
    | None => ("None", "")
    end in
  let df_filt := df_filt a in
  let fig := {| data := []; layout := None |} in
  let layer2 :=
    match df_filt with
    | [] => Ok fig
    | _ :: _ =>
      match getitem df_filt (selected_variable a) with
      | Ok zs =>
        Ok {| data := data fig ++
                [ {| trace_geojson := geojson a;
                     locations := Forecast.fnid <$> df_filt;
                     z := zs;
                     featureidkey := "properties.fnid";
                     colorscale := "RdYlBu";
                     marker_line_width := (1 # 2)%Q;
                     colorbar_title := var_label;
                     text := Forecast.admin1 <$> df_filt;
                     hovertemplate :=
                       "<b>%{text}</b><br>" ++ var_label ++ ": "
                       ++ "%{z:.2f} " ++ var_unit ++ "<extra></extra>" |} ];
              layout := layout fig |}
      | Raised e => Raised e
      end
    end in
  match layer2 with
  | Raised e => Raised e
  | Ok fig =>
    let country_gdf :=
      filter (λ r, Some (Region.admin0 r) = selected_country a) (_gdf a) in
    let lat0 := Series_mean (Region.centroid_lat <$> country_gdf) in
    let lon0 := Series_mean (Region.centroid_lon <$> country_gdf) in
    Ok {| data := data fig;
          layout := Some {| mapbox_style := "carto-positron";
                            mapbox_zoom := 4;
                            mapbox_center_lat := lat0;
                            mapbox_center_lon := lon0;
                            margin := (0, 0, 0, 0) |} |}
  end.

End viz.

(** ** Streamlit: the script monad *)

(** A script run ends normally, at [st.stop()], or on an uncaught
    exception. *)
Inductive halt :=
| Stop
| Crash (e : exn).

Inductive pyval :=
| Str (s : string)
| Int (n : Z).

(** What a run puts on screen, in call order. *)
Inductive element :=
| Title (body : string)
| Markdown (body : string)
| Radio (label : string) (options : list string) (value : option string)
| Folium (m : viz.Map)
| Success (body : string)
| Warning (body : string)
| Info (body : string)
| Selectbox (label : string) (options : list pyval) (value : option pyval)
| Button (label : string) (clicked : bool)
| Pyplot (fig : viz.LinePlot)
| PlotlyChart (fig : viz.Figure).

(** The hashed arguments of [create_map]: [st.cache_resource] leaves out
    of the key every parameter whose name starts with an underscore. *)
Definition create_map_key : Type :=
  list Forecast.row * GeoJSON * option string * list string * option string
  * option string * option Z * option string * option Z.

(** The state a run works on.  [choropleth_fig] is the entry of
    [st.session_state] under that key: [None] while the key is absent,
    [Some None] once initialised to Python's None.  The three caches are
    those of the [st.cache_resource] functions; they and the session state
    outlive a run, [screen] is rebuilt by every run. *)
Record world := mkWorld {
  choropleth_fig : option (option viz.Figure);
  cache_plot_yield_obs : list (list YieldObs.row * viz.LinePlot);
  cache_plot_eo_var : list (list EOObs.row * string * viz.LinePlot);
  cache_create_map : list (create_map_key * viz.Figure);
  screen : list element }.

Definition script (A : Type) : Type := world → (A + halt) * world.

#[global] Instance script_ret : MRet script := λ A a w, (inl a, w).
#[global] Instance script_bind : MBind script := λ A B f m w,
  match m w with
  | (inl a, w') => f a w'
  | (inr h, w') => (inr h, w')
  end.

Definition raise {A} (e : exn) : script A := λ w, (inr (Crash e), w).

Definition lift {A} (r : result A) : script A :=
  match r with
  | Ok a => mret a
  | Raised e => raise e
  end.

Definition get_choropleth_fig : script (option (option viz.Figure)) :=
  λ w, (inl (choropleth_fig w), w).

Definition set_choropleth_fig (v : option viz.Figure) : script unit :=
  λ w, (inl (), mkWorld (Some v) (cache_plot_yield_obs w)
                  (cache_plot_eo_var w) (cache_create_map w) (screen w)).

(** ** [st.cache_resource] *)

Inductive served := Hit | Miss.

Fixpoint assoc {K V} `{EqDecision K} (c : list (K * V)) (k : K) : option V :=
  match c with
  | [] => None
  | (k', v) :: c' => if decide (k' = k) then Some v else assoc c' k
  end.

(** A call of a function decorated with [st.cache_resource]: the stored
    object when the key of the arguments is in the cache, otherwise the
    body runs and its return value is stored; an exception stores
    nothing.  No entry is ever evicted (no ttl, no max_entries). *)
Definition cache_resource {X K V} `{EqDecision K}
    (key : X → K) (body : X → result V) (c : list (K * V)) (x : X)
  : result V * list (K * V) * served :=
  match assoc c (key x) with
  | Some v => (Ok v, c, Hit)
  | None =>
    match body x with
    | Ok v => (Ok v, (key x, v) :: c, Miss)
    | Raised e => (Raised e, c, Miss)
    end
  end.

Definition cache_key (a : viz.args) : create_map_key :=
  (viz.yield_fcst a, viz.geojson a, viz.selected_variable a,
   viz.country_fnids a, viz.selected_country a, viz.selected_season a,
   viz.selected_year a, viz.selected_model a, viz.selected_lead a).

(** [viz.create_map] as the script calls it, through its decorator. *)
Definition cached_create_map
    (c : list (create_map_key * viz.Figure)) (a : viz.args)
  : result viz.Figure * list (create_map_key * viz.Figure) * served :=
  cache_resource cache_key viz.create_map c a.

Definition create_map (a : viz.args) : script viz.Figure := λ w,
  let '(r, c, _) := cached_create_map (cache_create_map w) a in
  lift r (mkWorld (choropleth_fig w) (cache_plot_yield_obs w)
            (cache_plot_eo_var w) c (screen w)).

Definition plot_yield_obs (crop_yield : list YieldObs.row)
  : script viz.LinePlot := λ w,
  let '(r, c, _) :=
    cache_resource id (λ df, Ok (viz.plot_yield_obs df))
      (cache_plot_yield_obs w) crop_yield in
  lift r (mkWorld (choropleth_fig w) c (cache_plot_eo_var w)
            (cache_create_map w) (screen w)).

Definition plot_eo_var (eo_df : list EOObs.row) (selected_eo : string)
  : script viz.LinePlot := λ w,
  let '(r, c, _) :=
    cache_resource id (λ p, Ok (viz.plot_eo_var p.1 p.2))
      (cache_plot_eo_var w) (eo_df, selected_eo) in
  lift r (mkWorld (choropleth_fig w) (cache_plot_yield_obs w) c
            (cache_create_map w) (screen w)).

(** ** Streamlit widgets and display calls *)

Module st.

Definition write (e : element) : script unit := λ w,
  (inl (), mkWorld (choropleth_fig w) (cache_plot_yield_obs w)
             (cache_plot_eo_var w) (cache_create_map w) (screen w ++ [e])).

Definition title (body : string) : script unit := write (Title body).
Definition markdown (body : string) : script unit := write (Markdown body).
Definition success (body : string) : script unit := write (Success body).
Definition warning (body : string) : script unit := write (Warning body).
Definition info (body : string) : script unit := write (Info body).
Definition pyplot (fig : viz.LinePlot) : script unit := write (Pyplot fig).
Definition plotly_chart (fig : viz.Figure) : script unit :=
  write (PlotlyChart fig).

(** [st.stop()]: the run ends here, nothing below executes. *)
Definition stop {A} : script A := λ w, (inr Stop, w).

(** The value a selectbox or radio returns: the option the user picked,
    the first one when nothing valid is picked, None without options. *)
Definition choice {A} (options : list A) (pick : nat) : option A :=
  match options !! pick with
  | Some v => Some v
  | None => head options
  end.

Definition selectbox {A} (show : A → pyval) (label : string)
    (options : list A) (pick : nat) : script (option A) :=
  let value := choice options pick in
  write (Selectbox label (show <$> options) (show <$> value));;
  mret value.

Definition radio (label : string) (options : list string) (pick : nat)
  : script (option string) :=
  let value := choice options pick in
  write (Radio label options value);; mret value.

Definition button (label : string) (clicked : bool) : script bool :=
  write (Button label clicked);; mret clicked.

End st.

(** [st_folium(m, ...)]: draws the map and returns the feature the user
    last clicked, if any. *)
Definition st_folium (m : viz.Map) (click : option Feature.properties)
  : script (option Feature.properties) :=
  st.write (Folium m);; mret click.

(** What the user does before one run of the script. *)
Record interaction := mkInteraction {
  pick_page : nat;
  last_active_drawing : option Feature.properties;
  pick_eo_var : nat;
  pick_variable : nat;
  pick_country : nat;
  pick_season : nat;
  pick_year : nat;
  pick_model : nat;
  pick_lead : nat;
  update_clicked : bool }.

(** ** app.py *)

Section app.

(** The five values [load_data()] returns, bound at module level. *)
Context (cape_eo : list EOObs.row) (viewer_yield : list YieldObs.row)
        (yield_fcst : list Forecast.row) (gdf : list Region.row)
        (geojson : GeoJSON).

Definition eo_vars : list string :=
  ["ndvi"; "prcp"; "pdry"; "etos"; "tavg"; "gdd"; "kdd"].

Definition pages : list string := ["Yield & Climate"; "Historical Forecasts"].

(** *** Page 1: Yield & Climate *)

(** [gdf[gdf['fnid'] == fnid].iloc[0]] *)
Definition region_row (fnid : string) : result Region.row :=
  iloc0 (filter (λ r, Region.fnid r = fnid) gdf).

(** [viewer_yield[viewer_yield['fnid'] == fnid]] *)
Definition crop_yield (fnid : string) : list YieldObs.row :=
  filter (λ r, YieldObs.fnid r = fnid) viewer_yield.

(** [cape_eo[cape_eo['fnid'] == fnid]] *)
Definition eo_df (fnid : string) : list EOObs.row :=
  filter (λ r, EOObs.fnid r = fnid) cape_eo.

(** The body of [if fnid:], for a non-empty [fnid]. *)
Definition display_region (ui : interaction) (fnid : string) : script unit :=
  let crop_yield := crop_yield fnid in
  let eo_df := eo_df fnid in
  selected_eo_var ←
    match eo_df with
    | _ :: _ =>
      st.selectbox Str "Select EO variables to plot" eo_vars (pick_eo_var ui)
    | [] => mret None
    end;
  match crop_yield with
  | [] => st.warning "No yield data available for this region."
  | _ :: _ => fig_yield ← plot_yield_obs crop_yield; st.pyplot fig_yield
  end;;
  match eo_df with
  | _ :: _ =>
    fig_eo ← plot_eo_var eo_df (default "None" selected_eo_var);
    st.pyplot fig_eo
  | [] => st.warning "No EO data available for this region."
  end.

Definition yield_climate (ui : interaction) : script unit :=
  st.markdown "### Click a region to view EO and crop data";;
  map_output ← st_folium (viz.build_base_map geojson) (last_active_drawing ui);
  fnid ←
    match map_output with
    | Some drawing =>
      let fnid := Feature.fnid drawing in
      region_row ← lift (region_row fnid);
      st.success ("Selected Region: " ++ Region.admin0 region_row ++ " - "
                  ++ Region.admin1 region_row);;
      mret (Some fnid)
    | None => mret None
    end;
  match fnid with
  | Some fnid =>
    if decide (fnid = "") then st.info "Click a region on the map to begin."
    else display_region ui fnid
  | None => st.info "Click a region on the map to begin."
  end.

(** *** Page 2: Historical Forecasts *)

Definition variables : list string := Forecast.value_columns.

Definition countries : list string :=
  sorted_str (unique (Forecast.country <$> yield_fcst)).

Definition country_fnids (selected_country : option string) : list string :=
  unique (Forecast.fnid <$>
    filter (λ r, Some (Forecast.country r) = selected_country) yield_fcst).

Definition seasons (country_fnids : list string) : list string :=
  unique (Forecast.season <$>
    filter (λ r, Forecast.fnid r ∈ country_fnids) yield_fcst).

(** The [year] values of the rows of the country's regions and the
    selected season, nulls dropped. *)
Definition yrs (country_fnids : list string) (selected_season : option string)
  : list Z :=
  omap Forecast.year
    (filter (λ r, Forecast.fnid r ∈ country_fnids
                  ∧ Some (Forecast.season r) = selected_season) yield_fcst).

Definition year_range (min_year max_year : Z) : list Z :=
  range min_year (max_year + 1).

Definition models : list string :=
  sorted_str (unique (Forecast.model <$> yield_fcst)).

Definition leads : list Z :=
  sorted_int (unique (Forecast.lead <$> yield_fcst)).

Definition historical_forecasts (ui : interaction) : script unit :=
  st.markdown "### View Historical Forecast and Error";;
  stored ← get_choropleth_fig;
  match stored with
  | None => set_choropleth_fig None
  | Some _ => mret ()
  end;;
  selected_variable ← st.selectbox Str "Variable" variables (pick_variable ui);
  selected_country ← st.selectbox Str "Country" countries (pick_country ui);
  let country_fnids := country_fnids selected_country in
  selected_season ←
    st.selectbox Str "Season" (seasons country_fnids) (pick_season ui);
  let yrs := yrs country_fnids selected_season in
  match yrs with
  | [] =>
    st.warning "No forecast years available for the selected conditions.";;
    st.stop
  | _ :: _ => mret ()
  end;;
  min_year ← lift (int (Series_min yrs));
  max_year ← lift (int (Series_max yrs));
  selected_year ←
    st.selectbox Int "Year" (year_range min_year max_year) (pick_year ui);
  selected_model ← st.selectbox Str "Model" models (pick_model ui);
  selected_lead ← st.selectbox Int "Lead" leads (pick_lead ui);
  update ← st.button "Update Map" (update_clicked ui);
  (if (update : bool) then
     fig ← create_map
       {| viz.yield_fcst := yield_fcst; viz.geojson := geojson;
          viz._gdf := gdf; viz.selected_variable := selected_variable;
          viz.country_fnids := country_fnids;
          viz.selected_country := selected_country;
          viz.selected_season := selected_season;
          viz.selected_year := selected_year;
          viz.selected_model := selected_model;
          viz.selected_lead := selected_lead |};
     set_choropleth_fig (Some fig)
   else mret ());;
  stored ← get_choropleth_fig;
  match stored with
  | Some (Some fig) => st.plotly_chart fig
  | _ => mret ()
  end.

(** *** The script, top to bottom *)

Definition main (ui : interaction) : script unit :=
  st.title "Sub-Saharan Africa Crop Forecast Viewer";;
  page ← st.radio "Page" pages (pick_page ui);
  (if decide (page = Some "Yield & Climate")
   then yield_climate ui else mret ());;
  (if decide (page = Some "Historical Forecasts")
   then historical_forecasts ui else mret ()).

(** One run of the script: Streamlit reruns it from the top after every
    interaction, on a cleared screen, with the session state and the
    caches left by the previous run. *)
Definition rerun (ui : interaction) (w : world) : (unit + halt) * world :=
  main ui (mkWorld (choropleth_fig w) (cache_plot_yield_obs w)
             (cache_plot_eo_var w) (cache_create_map w) []).

End app.

(** The artifact the session holds: null while the key is absent or None. *)
Definition artifact (w : world) : option viz.Figure :=
  default None (choropleth_fig w).

(** The arguments the Historical Forecasts page passes to [create_map]
    for the selections of [ui], given the bounds of the year options. *)
Definition selected_args
    (yield_fcst : list Forecast.row) (gdf : list Region.row)
    (geojson : GeoJSON) (ui : interaction) (min_year max_year : Z)
  : viz.args :=
  let selected_country := st.choice (countries yield_fcst) (pick_country ui) in
  let fnids := country_fnids yield_fcst selected_country in
  {| viz.yield_fcst := yield_fcst; viz.geojson := geojson; viz._gdf := gdf;
     viz.selected_variable := st.choice variables (pick_variable ui);
     viz.country_fnids := fnids;
     viz.selected_country := selected_country;
     viz.selected_season :=
       st.choice (seasons yield_fcst fnids) (pick_season ui);
     viz.selected_year :=
       st.choice (year_range min_year max_year) (pick_year ui);
     viz.selected_model := st.choice (models yield_fcst) (pick_model ui);
     viz.selected_lead := st.choice (leads yield_fcst) (pick_lead ui) |}.

(** ** A small dataset, used to run the script on concrete inputs *)

Module sample.

Definition geojson : GeoJSON :=
  [ Feature.mk "KE2001" "Kenya" "Rift Valley" "Nakuru";
    Feature.mk "KE2002" "Kenya" "Coast" "Kilifi";
    Feature.mk "SO1001" "Somalia" "Bay" "Baidoa";
    Feature.mk "TZ3001" "Tanzania" "Arusha" "Meru" ].

(** The simplified shape layer lacks the Tanzanian region that the
    GeoJSON document draws. *)
Definition gdf : list Region.row :=
  [ Region.mk "KE2001" "Kenya" "Rift Valley" "Nakuru" (1 # 2) 36;
    Region.mk "KE2002" "Kenya" "Coast" "Kilifi" (-7 # 2) 39;
    Region.mk "SO1001" "Somalia" "Bay" "Baidoa" 3 (87 # 2) ].

Definition viewer_yield : list YieldObs.row :=
  [ YieldObs.mk "KE2001" 2018 (12 # 10);
    YieldObs.mk "KE2002" 2018 (9 # 10);
    YieldObs.mk "KE2001" 2019 (15 # 10) ].

Definition cape_eo : list EOObs.row :=
  [ EOObs.mk "KE2001" 736695 (4 # 10) 80 3 5 21 300 12;
    EOObs.mk "KE2001" 736726 (5 # 10) 95 2 4 22 310 9 ].

Definition yield_fcst : list Forecast.row :=
  [ Forecast.mk "KE2001" "Kenya" "Rift Valley" "Nakuru" "long" (Some 2018)
      "XGB" 1 (13 # 10) (1 # 10) (8 # 1);
    Forecast.mk "KE2002" "Kenya" "Coast" "Kilifi" "short" (Some 2018)
      "LR" 2 (8 # 10) (-1 # 10) (-11 # 1);
    Forecast.mk "KE2001" "Kenya" "Rift Valley" "Nakuru" "long" (Some 2020)
      "XGB" 1 (14 # 10) (-2 # 10) (-12 # 1);
    Forecast.mk "SO1001" "Somalia" "Bay" "Baidoa" "gu" None
      "XGB" 1 (5 # 10) 0 0 ].

Definition main : interaction → script unit :=
  main cape_eo viewer_yield yield_fcst gdf geojson.

Definition rerun : interaction → world → (unit + halt) * world :=
  rerun cape_eo viewer_yield yield_fcst gdf geojson.

(** A fresh session: nothing stored, nothing cached, nothing drawn. *)
Definition fresh : world := mkWorld None [] [] [] [].

(** Page 2 with Kenya / long / 2019 / XGB / 1 selected. *)
Definition kenya_long_2019 (update : bool) : interaction :=
  mkInteraction 1 None 0 0 0 0 1 1 0 update.

(** Page 2 with Kenya / long / 2018 / XGB / 1 selected. *)
Definition kenya_long_2018 (update : bool) : interaction :=
  mkInteraction 1 None 0 0 0 0 0 1 0 update.

(** Page 2 with Somalia / gu selected. *)
Definition somalia_gu (update : bool) : interaction :=
  mkInteraction 1 None 0 0 1 0 0 0 0 update.

(** The [create_map] call of a run with Kenya / long / [year] / XGB / 1
    and the first variable selected. *)
Definition kenya_long (year : Z) : viz.args :=
  {| viz.yield_fcst := yield_fcst; viz.geojson := geojson; viz._gdf := gdf;
     viz.selected_variable := Some "yield_fcst";
     viz.country_fnids := ["KE2001"; "KE2002"];
     viz.selected_country := Some "Kenya";
     viz.selected_season := Some "long";
     viz.selected_year := Some year;
     viz.selected_model := Some "XGB";
     viz.selected_lead := Some 1 |}.

(** A session that holds the choropleth of Kenya / long / 2018. *)
Definition kenya_2018_fig : viz.Figure :=
  match viz.create_map (kenya_long 2018) with
  | Ok fig => fig
  | Raised _ => viz.mkFigure [] None
  end.

Definition rendered : world :=
  mkWorld (Some (Some kenya_2018_fig)) [] [] [] [].

(** A region table whose Kenyan centroids differ from those of [gdf]. *)
Definition gdf_moved : list Region.row :=
  [ Region.mk "KE2001" "Kenya" "Rift Valley" "Nakuru" 10 30;
    Region.mk "KE2002" "Kenya" "Coast" "Kilifi" 20 40 ].

(** Page 1 after a click on the feature [f]. *)
Definition click (f : Feature.properties) : interaction :=
  mkInteraction 0 (Some f) 0 0 0 0 0 0 0 false.

End sample.

(** ** Properties stated about the script *)

(** The yield table lists each region's rows by year: of two rows of one
    region, the one met first does not have the later year. *)
Definition ordered_by_year_per_region (t : list YieldObs.row) : Prop :=
  ∀ (i j : nat) (r1 r2 : YieldObs.row),
    (i < j)%nat → t !! i = Some r1 → t !! j = Some r2 →
    YieldObs.fnid r1 = YieldObs.fnid r2 → YieldObs.year r1 ≤ YieldObs.year r2.

(** The run shows the Historical Forecasts page. *)
Definition on_forecast_page (ui : interaction) : Prop :=
  st.choice pages (pick_page ui) = Some "Historical Forecasts".

(** The explicit update trigger fires in the run. *)
Definition trigger_fires (ui : interaction) : Prop :=
  on_forecast_page ui ∧ update_clicked ui = true.

(** Hoare triples on scripts: from a world satisfying [P], the outcome of
    [m] (a value or a halt) and the world it leaves satisfy [Q]. *)
Definition hoare {A} (P : world → Prop) (m : script A)
    (Q : A + halt → world → Prop) : Prop :=
  ∀ w, P w → Q (m w).1 (m w).2.

(** [m] keeps the invariant [I], also when the run halts inside [m], and
    every value it returns satisfies [φ]. *)
Definition keeps {A} (I : world → Prop) (m : script A) (φ : A → Prop) : Prop :=
  hoare I m (λ r w, I w ∧ match r with inl a => φ a | inr _ => True end).

(** The session holds the artifact [a] and no choropleth is on screen. *)
Definition quiet (a : option viz.Figure) (w : world) : Prop :=
  artifact w = a ∧ ∀ f, PlotlyChart f ∉ screen w.

(** What a run of the forecast page that did not fire the trigger leaves:
    the artifact [a] still stored, no choropleth on screen but [a], [a]
    on screen when it is not null and the run reached its end, and no
    choropleth at all on screen when the run halted. *)
Definition shows_stored (a : option viz.Figure) (r : unit + halt) (w : world)
  : Prop :=
  artifact w = a
  ∧ (∀ f, PlotlyChart f ∈ screen w → a = Some f)
  ∧ (r = inl () → ∀ f, a = Some f → PlotlyChart f ∈ screen w)
  ∧ (r ≠ inl () → ∀ f, PlotlyChart f ∉ screen w).

Definition is_chart (e : element) : Prop :=
  match e with
  | PlotlyChart _ => True
  | _ => False
  end.

(** The cell of the choropleth a forecast record belongs to: region id
    and the four selector columns. *)
Definition cell (r : Forecast.row)
  : string * string * option Z * string * Z :=
  (Forecast.fnid r, Forecast.season r, Forecast.year r, Forecast.model r,
   Forecast.lead r).

(** The forecast table holds at most one record per cell. *)
Definition one_record_per_cell (t : list Forecast.row) : Prop :=
  NoDup (cell <$> t).

(** In the forecast table a region id always comes with the same country. *)
Definition one_country_per_region (t : list Forecast.row) : Prop :=
  ∀ r1 r2, r1 ∈ t → r2 ∈ t →
    Forecast.fnid r1 = Forecast.fnid r2 →
    Forecast.country r1 = Forecast.country r2.

(** [a] with another region table in place of [_gdf]. *)
Definition with_gdf (a : viz.args) (gdf : list Region.row) : viz.args :=
  {| viz.yield_fcst := viz.yield_fcst a; viz.geojson := viz.geojson a;
     viz._gdf := gdf; viz.selected_variable := viz.selected_variable a;
     viz.country_fnids := viz.country_fnids a;
     viz.selected_country := viz.selected_country a;
     viz.selected_season := viz.selected_season a;
     viz.selected_year := viz.selected_year a;
     viz.selected_model := viz.selected_model a;
     viz.selected_lead := viz.selected_lead a |}.

(** Every figure in the choropleth cache is what [create_map] returns for
    the arguments of its key and the region table [gdf]. *)
Definition create_map_cache_sound (gdf : list Region.row)
    (c : list (create_map_key * viz.Figure)) : Prop :=
  ∀ a fig, assoc c (cache_key a) = Some fig →
    viz.create_map (with_gdf a gdf) = Ok fig.

(** The same for the keys of one forecast table only: every figure cached
    under the key of arguments that carry the table [t] is what
    [create_map] returns for them and the region table [gdf].  Nothing is
    asked of entries stored for another table. *)
Definition create_map_cache_sound_for (t : list Forecast.row)
    (gdf : list Region.row) (c : list (create_map_key * viz.Figure)) : Prop :=
  ∀ a fig, viz.yield_fcst a = t → assoc c (cache_key a) = Some fig →
    viz.create_map (with_gdf a gdf) = Ok fig.

(** Every figure in the two plot caches is what the plot function returns
    for its key. *)
Definition plot_caches_sound (w : world) : Prop :=
  (∀ df fig, assoc (cache_plot_yield_obs w) df = Some fig →
     fig = viz.plot_yield_obs df)
  ∧ (∀ df v fig, assoc (cache_plot_eo_var w) (df, v) = Some fig →
       fig = viz.plot_eo_var df v).

(** The run shows the Yield & Climate page. *)
Definition on_region_page (ui : interaction) : Prop :=
  st.choice pages (pick_page ui) = Some "Yield & Climate".

(** ** Lemmas on the pandas primitives *)

Section primitives.
Context {A : Type} `{EqDecision A}.

Lemma elem_of_unique (x : A) (l : list A) : x ∈ unique l ↔ x ∈ l.
Proof.
  induction l as [|y l IH]; simpl; [done|].
  rewrite !elem_of_cons, list_elem_of_filter, IH.
  destruct (decide (x = y)); tauto.
Qed.

Lemma NoDup_unique (l : list A) : NoDup (unique l).
Proof.
  induction l as [|y l IH]; simpl; [constructor|].
  constructor.
  - rewrite list_elem_of_filter. tauto.
  - by apply NoDup_filter.
Qed.
End primitives.

Lemma Series_min_spec (s : list Z) (lo : Z) :
  Series_min s = Some lo → lo ∈ s ∧ ∀ y, y ∈ s → lo ≤ y.
Proof.
  destruct s as [|y0 s]; simpl; [done|]. intros Heq; injection Heq as <-.
  induction s as [|y s [IHin IHle]]; simpl.
  - split; [left|]. intros y ->%list_elem_of_singleton. lia.
  - split.
    + destruct (Z.min_spec y (foldr Z.min y0 s)) as [[_ ->]|[_ ->]].
      * right; left.
      * apply elem_of_cons in IHin as [->|?]; [left|right; by right].
    + intros y' Hy'. rewrite !elem_of_cons in Hy'.
      destruct Hy' as [->|[->|Hy']].
      * specialize (IHle y0 ltac:(left)). lia.
      * lia.
      * specialize (IHle y' ltac:(by right)). lia.
Qed.

Lemma Series_max_spec (s : list Z) (hi : Z) :
  Series_max s = Some hi → hi ∈ s ∧ ∀ y, y ∈ s → y ≤ hi.
Proof.
  destruct s as [|y0 s]; simpl; [done|]. intros Heq; injection Heq as <-.
  induction s as [|y s [IHin IHle]]; simpl.
  - split; [left|]. intros y ->%list_elem_of_singleton. lia.
  - split.
    + destruct (Z.max_spec y (foldr Z.max y0 s)) as [[_ ->]|[_ ->]].
      * apply elem_of_cons in IHin as [->|?]; [left|right; by right].
      * right; left.
    + intros y' Hy'. rewrite !elem_of_cons in Hy'.
      destruct Hy' as [->|[->|Hy']].
      * specialize (IHle y0 ltac:(left)). lia.
      * lia.
      * specialize (IHle y' ltac:(by right)). lia.
Qed.

Lemma elem_of_range (a b y : Z) : y ∈ range a b ↔ a ≤ y < b.
Proof. unfold range. rewrite elem_of_seqZ. lia. Qed.

Lemma ordered_by_year_cons (r : YieldObs.row) (t : list YieldObs.row) :
  ordered_by_year_per_region (r :: t) →
  ordered_by_year_per_region t
  ∧ ∀ r', r' ∈ t → YieldObs.fnid r = YieldObs.fnid r' →
      YieldObs.year r ≤ YieldObs.year r'.
Proof.
  intros Hord. split.
  - intros i j r1 r2 Hij H1 H2. apply (Hord (S i) (S j)); [lia|done..].
  - intros r' [j Hj]%list_elem_of_lookup. apply (Hord 0%nat (S j)); [lia|done..].
Qed.

Lemma filter_nil_intro {A} (P : A → Prop) `{∀ x, Decision (P x)} (l : list A) :
  (∀ x, x ∈ l → ¬ P x) → filter P l = [].
Proof.
  induction l as [|x l IH]; intros Hl; [done|].
  rewrite filter_cons_False by (apply Hl; left).
  apply IH. intros y Hy. apply Hl. by right.
Qed.

(** ** The choropleth filter and the figure of [create_map] *)

(** C1: for every forecast table and selector tuple, the subset that
    [create_map] filters holds exactly the records of the table whose
    region id is in the country's region-id list and whose season, year,
    model and lead all equal the selected values, in table order. *)
Theorem create_map_filter_conjunctive
    (fcst : list Forecast.row) (geo : GeoJSON) (gdf : list Region.row)
    (var : option string) (fnids : list string) (country : option string)
    (season : string) (year : Z) (model : string) (lead : Z) :
  let a := viz.mkArgs fcst geo gdf var fnids country
             (Some season) (Some year) (Some model) (Some lead) in
  (∀ r, r ∈ viz.df_filt a ↔
        r ∈ fcst ∧ Forecast.fnid r ∈ fnids ∧ Forecast.season r = season
        ∧ Forecast.year r = Some year ∧ Forecast.model r = model
        ∧ Forecast.lead r = lead)
  ∧ viz.df_filt a `sublist_of` fcst.
Proof.
  intros a. split; [|apply sublist_filter].
  intros r. unfold viz.df_filt, viz.selection. rewrite list_elem_of_filter.
  subst a; simpl. split.
  - intros [(Hf & Hs & [_ Hy] & Hm & Hl) Hin].
    repeat split; try done; congruence.
  - intros (Hin & Hf & <- & Hy & <- & <-). rewrite Hy. by repeat split.
Qed.

(** C3: whenever the filter selects nothing, [create_map] returns (it
    does not raise) a figure without any choropleth trace, whose layout
    is complete: style, zoom, margins and the center computed from the
    country's regions. *)
Theorem create_map_empty_subset (a : viz.args) :
  viz.df_filt a = [] →
  ∃ fig lay,
    viz.create_map a = Ok fig
    ∧ viz.data fig = []
    ∧ viz.layout fig = Some lay
    ∧ viz.mapbox_style lay = "carto-positron"
    ∧ viz.mapbox_zoom lay = 4
    ∧ viz.margin lay = (0, 0, 0, 0)
    ∧ let country_gdf :=
        filter (λ r, Some (Region.admin0 r) = viz.selected_country a)
          (viz._gdf a) in
      viz.mapbox_center_lat lay
        = Series_mean (Region.centroid_lat <$> country_gdf)
      ∧ viz.mapbox_center_lon lay
        = Series_mean (Region.centroid_lon <$> country_gdf).
Proof.
  intros Hempty. unfold viz.create_map. rewrite Hempty.
  destruct (match viz.selected_variable a with
            | Some v => default (v, "") (viz.label_map !! v)
            | None => ("None", "")
            end) as [var_label var_unit].
  eexists _, _. repeat split.
Qed.

Lemma create_map_empty_subset_witness :
  viz.df_filt (sample.kenya_long 2019) = []
  ∧ ∃ fig lay,
      viz.create_map (sample.kenya_long 2019) = Ok fig
      ∧ viz.data fig = []
      ∧ viz.layout fig = Some lay
      ∧ viz.mapbox_style lay = "carto-positron"
      ∧ viz.mapbox_zoom lay = 4
      ∧ viz.margin lay = (0, 0, 0, 0)
      ∧ let country_gdf :=
          filter (λ r, Some (Region.admin0 r)
                       = viz.selected_country (sample.kenya_long 2019))
            (viz._gdf (sample.kenya_long 2019)) in
        viz.mapbox_center_lat lay
          = Series_mean (Region.centroid_lat <$> country_gdf)
        ∧ viz.mapbox_center_lon lay
          = Series_mean (Region.centroid_lon <$> country_gdf).
Proof.
  split; [reflexivity|].
  apply (create_map_empty_subset (sample.kenya_long 2019)). reflexivity.
Defined.

(** Which rows and columns the center of the map is taken over: for every
    figure [create_map] returns, the mean of [centroid_lat] and the mean
    of [centroid_lon] over the rows of the region table whose [admin0] is
    the selected country.  Nothing is said about the value of a mean. *)
Lemma create_map_center_rows (a : viz.args) (fig : viz.Figure) :
  viz.create_map a = Ok fig →
  ∃ lay, viz.layout fig = Some lay
    ∧ viz.mapbox_center_lat lay
      = Series_mean (Region.centroid_lat <$>
          filter (λ r, Some (Region.admin0 r) = viz.selected_country a)
            (viz._gdf a))
    ∧ viz.mapbox_center_lon lay
      = Series_mean (Region.centroid_lon <$>
          filter (λ r, Some (Region.admin0 r) = viz.selected_country a)
            (viz._gdf a)).
Proof.
  unfold viz.create_map.
  destruct (match viz.selected_variable a with
            | Some v => default (v, "") (viz.label_map !! v)
            | None => ("None", "")
            end) as [var_label var_unit].
  intros Hfig.
  destruct (viz.df_filt a) as [|r rows].
  - injection Hfig as <-. by eexists.
  - destruct (viz.getitem (r :: rows) (viz.selected_variable a)); [|done].
    injection Hfig as <-. by eexists.
Qed.

(** ** Filtering the yield and EO tables by region *)

Lemma crop_yield_sorted (viewer_yield : list YieldObs.row) (fnid : string) :
  ordered_by_year_per_region viewer_yield →
  StronglySorted Z.le (YieldObs.year <$> crop_yield viewer_yield fnid).
Proof.
  unfold crop_yield.
  induction viewer_yield as [|r t IH]; intros Hord; [constructor|].
  apply ordered_by_year_cons in Hord as [Hord Hhead].
  rewrite filter_cons. case_decide as Hr; [|by apply IH].
  rewrite fmap_cons. constructor; [by apply IH|].
  apply Forall_fmap, Forall_forall. intros r' [Hr' Hin]%list_elem_of_filter.
  simpl. apply Hhead; [done|congruence].
Qed.

(** C4: filtering the yield table and the EO table by a region id keeps
    exactly the rows with that region id, in the order of the input
    table, whatever the order of the tables; when, in addition, the yield
    table lists every region's rows by year, the years of the filtered
    yield rows never decrease. *)
Theorem region_filter_rows
    (cape_eo : list EOObs.row) (viewer_yield : list YieldObs.row)
    (fnid : string) :
  (∀ r, r ∈ crop_yield viewer_yield fnid ↔
        r ∈ viewer_yield ∧ YieldObs.fnid r = fnid)
  ∧ (∀ r, r ∈ eo_df cape_eo fnid ↔ r ∈ cape_eo ∧ EOObs.fnid r = fnid)
  ∧ crop_yield viewer_yield fnid `sublist_of` viewer_yield
  ∧ eo_df cape_eo fnid `sublist_of` cape_eo
  ∧ (ordered_by_year_per_region viewer_yield →
     StronglySorted Z.le (YieldObs.year <$> crop_yield viewer_yield fnid)).
Proof.
  split; [|split; [|split; [|split]]].
  - intros r. unfold crop_yield. rewrite list_elem_of_filter. tauto.
  - intros r. unfold eo_df. rewrite list_elem_of_filter. tauto.
  - apply sublist_filter.
  - apply sublist_filter.
  - apply crop_yield_sorted.
Qed.

Lemma sample_viewer_yield_ordered :
  ordered_by_year_per_region sample.viewer_yield.
Proof.
  intros i j r1 r2 Hij H1 H2 Hfnid.
  destruct i as [|[|[|i]]]; destruct j as [|[|[|j]]];
    simpl in H1, H2; try lia; try discriminate;
    injection H1 as <-; injection H2 as <-; simpl in *;
    try discriminate; lia.
Defined.

Lemma region_filter_rows_witness :
  (ordered_by_year_per_region sample.viewer_yield
   ∧ crop_yield sample.viewer_yield "KE2001"
     = [ YieldObs.mk "KE2001" 2018 (12 # 10);
         YieldObs.mk "KE2001" 2019 (15 # 10) ]
   ∧ StronglySorted Z.le
       (YieldObs.year <$> crop_yield sample.viewer_yield "KE2001"))
  ∧ (let unordered := [ YieldObs.mk "KE2001" 2019 (15 # 10);
                        YieldObs.mk "KE2002" 2018 (9 # 10);
                        YieldObs.mk "KE2001" 2018 (12 # 10) ] in
     (∀ r, r ∈ crop_yield unordered "KE2001" ↔
           r ∈ unordered ∧ YieldObs.fnid r = "KE2001")
     ∧ crop_yield unordered "KE2001" `sublist_of` unordered).
Proof.
  split.
  - split; [exact sample_viewer_yield_ordered|]. split; [reflexivity|].
    destruct (region_filter_rows sample.cape_eo sample.viewer_yield "KE2001")
      as (_ & _ & _ & _ & Hsorted).
    exact (Hsorted sample_viewer_yield_ordered).
  - intros unordered.
    destruct (region_filter_rows sample.cape_eo unordered "KE2001")
      as (Hrows & _ & Hsub & _).
    by split.
Defined.

(** ** Selector options of the Historical Forecasts page *)

Lemma elem_of_country_fnids
    (yield_fcst : list Forecast.row) (country : option string) (f : string) :
  f ∈ country_fnids yield_fcst country ↔
  ∃ r, r ∈ yield_fcst ∧ Some (Forecast.country r) = country
       ∧ Forecast.fnid r = f.
Proof.
  unfold country_fnids. rewrite elem_of_unique, list_elem_of_fmap.
  split.
  - intros (r & -> & [Hc Hin]%list_elem_of_filter). by exists r.
  - intros (r & Hin & Hc & <-). exists r. split; [done|].
    by apply list_elem_of_filter.
Qed.

(** C8: for every selected country, the season options are the distinct
    seasons of the forecast rows whose region id is in that country's
    region-id list (each season once), and that list holds the region ids
    of the rows of that country; both are functions of the selected
    country alone, so another country gives the list of its own regions. *)
Theorem seasons_union_of_country
    (yield_fcst : list Forecast.row) (selected_country : option string) :
  let fnids := country_fnids yield_fcst selected_country in
  (∀ s, s ∈ seasons yield_fcst fnids ↔
        ∃ r, r ∈ yield_fcst ∧ Forecast.fnid r ∈ fnids ∧ Forecast.season r = s)
  ∧ NoDup (seasons yield_fcst fnids)
  ∧ (∀ f, f ∈ fnids ↔
          ∃ r, r ∈ yield_fcst ∧ Some (Forecast.country r) = selected_country
               ∧ Forecast.fnid r = f)
  ∧ NoDup fnids.
Proof.
  intros fnids. split; [|split; [|split]].
  - intros s. unfold seasons. rewrite elem_of_unique, list_elem_of_fmap.
    split.
    + intros (r & -> & [Hf Hin]%list_elem_of_filter). by exists r.
    + intros (r & Hin & Hf & <-). exists r. split; [done|].
      by apply list_elem_of_filter.
  - apply NoDup_unique.
  - intros f. apply elem_of_country_fnids.
  - apply NoDup_unique.
Qed.

Lemma elem_of_yrs
    (yield_fcst : list Forecast.row) (fnids : list string)
    (season : option string) (y : Z) :
  y ∈ yrs yield_fcst fnids season ↔
  ∃ r, r ∈ yield_fcst ∧ Forecast.fnid r ∈ fnids
       ∧ Some (Forecast.season r) = season ∧ Forecast.year r = Some y.
Proof.
  unfold yrs. rewrite list_elem_of_omap. split.
  - intros (r & [[Hf Hs] Hin]%list_elem_of_filter & Hy). by exists r.
  - intros (r & Hin & Hf & Hs & Hy). exists r. split; [|done].
    by apply list_elem_of_filter.
Qed.

(** The year options of a selection with available years: the integers
    between the least and the greatest of them; an option that is no
    available year leaves the filter of [create_map] empty. *)
Lemma year_range_spec
    (yield_fcst : list Forecast.row) (fnids : list string)
    (season : option string) :
  yrs yield_fcst fnids season ≠ [] →
  ∃ lo hi,
    int (Series_min (yrs yield_fcst fnids season)) = Ok lo
    ∧ int (Series_max (yrs yield_fcst fnids season)) = Ok hi
    ∧ lo ∈ yrs yield_fcst fnids season
    ∧ hi ∈ yrs yield_fcst fnids season
    ∧ (∀ y, y ∈ yrs yield_fcst fnids season → lo ≤ y ≤ hi)
    ∧ year_range lo hi = seqZ lo (hi - lo + 1)
    ∧ (∀ y, y ∈ year_range lo hi ↔ lo ≤ y ≤ hi)
    ∧ ∀ y geo gdf var country model lead,
        y ∈ year_range lo hi → y ∉ yrs yield_fcst fnids season →
        viz.df_filt (viz.mkArgs yield_fcst geo gdf var fnids country season
                       (Some y) model lead) = [].
Proof.
  intros Hne.
  destruct (Series_min (yrs yield_fcst fnids season)) as [lo|] eqn:Hmin;
    [|by destruct (yrs yield_fcst fnids season)].
  destruct (Series_max (yrs yield_fcst fnids season)) as [hi|] eqn:Hmax;
    [|by destruct (yrs yield_fcst fnids season)].
  apply Series_min_spec in Hmin as [Hlo_in Hlo].
  apply Series_max_spec in Hmax as [Hhi_in Hhi].
  exists lo, hi.
  split; [done|]. split; [done|]. split; [done|]. split; [done|].
  split; [|split; [|split]].
  - intros y Hy. split; [by apply Hlo|by apply Hhi].
  - unfold year_range, range. f_equal. lia.
  - intros y. unfold year_range. rewrite elem_of_range. lia.
  - intros y geo gdf var country model lead _ Hgap.
    apply filter_nil_intro. intros r Hin (Hf & Hs & [_ Hy] & _).
    simpl in *. apply Hgap, elem_of_yrs. by exists r.
Qed.

(** ** Reasoning about scripts *)

Section hoare_rules.
Context {A B : Type} (I : world → Prop).

Lemma keeps_ret (a : A) (φ : A → Prop) : φ a → keeps I (mret a) φ.
Proof. intros Ha w Hw. by split. Qed.

Lemma keeps_raise (e : exn) (φ : A → Prop) : keeps I (raise e) φ.
Proof. intros w Hw. by split. Qed.

Lemma keeps_stop (φ : A → Prop) : keeps I st.stop φ.
Proof. intros w Hw. by split. Qed.

Lemma keeps_lift (r : result A) : keeps I (lift r) (λ a, r = Ok a).
Proof. intros w Hw. destruct r; by split. Qed.

Lemma keeps_weaken (m : script A) (φ ψ : A → Prop) :
  keeps I m φ → (∀ a, φ a → ψ a) → keeps I m ψ.
Proof.
  intros Hm Himp w Hw. destruct (Hm w Hw) as [HI Hr]. split; [done|].
  destruct (m w).1; [by apply Himp|done].
Qed.

Lemma keeps_bind (m : script A) (k : A → script B)
    (φ : A → Prop) (ψ : B → Prop) :
  keeps I m φ → (∀ a, φ a → keeps I (k a) ψ) → keeps I (m ≫= k) ψ.
Proof.
  intros Hm Hk w Hw. specialize (Hm w Hw).
  unfold mbind, script_bind. destruct (m w) as [[a|h] w1]; simpl in *.
  - destruct Hm as [HI Ha]. by apply Hk.
  - by destruct Hm.
Qed.

Lemma hoare_bind_keeps (m : script A) (k : A → script B)
    (φ : A → Prop) (Q : B + halt → world → Prop) :
  keeps I m φ →
  (∀ h w, I w → Q (inr h) w) →
  (∀ a, φ a → hoare I (k a) Q) →
  hoare I (m ≫= k) Q.
Proof.
  intros Hm Hhalt Hk w Hw. specialize (Hm w Hw).
  unfold mbind, script_bind. destruct (m w) as [[a|h] w1]; simpl in *.
  - destruct Hm as [HI Ha]. by apply Hk.
  - destruct Hm as [HI _]. by apply Hhalt.
Qed.
End hoare_rules.

(** Steps of the script that leave the stored artifact alone and draw no
    choropleth. *)
Section quiet_steps.
Context (a : option viz.Figure).

Lemma keeps_write (e : element) :
  ¬ is_chart e → keeps (quiet a) (st.write e) (λ _, True).
Proof.
  intros He w [Hart Hscreen]. split; [|done]. split; [done|].
  intros f [Hin| <-%list_elem_of_singleton]%elem_of_app; simpl in *.
  - by apply (Hscreen f).
  - by apply He.
Qed.

Lemma keeps_selectbox {A} (show : A → pyval) label options pick :
  keeps (quiet a) (st.selectbox show label options pick)
    (λ v, v = st.choice options pick).
Proof.
  unfold st.selectbox. eapply keeps_bind; [apply keeps_write; simpl; tauto|].
  intros _ _. by apply keeps_ret.
Qed.

Lemma keeps_radio label options pick :
  keeps (quiet a) (st.radio label options pick)
    (λ v, v = st.choice options pick).
Proof.
  unfold st.radio. eapply keeps_bind; [apply keeps_write; simpl; tauto|].
  intros _ _. by apply keeps_ret.
Qed.

Lemma keeps_button label clicked :
  keeps (quiet a) (st.button label clicked) (λ b, b = clicked).
Proof.
  unfold st.button. eapply keeps_bind; [apply keeps_write; simpl; tauto|].
  intros _ _. by apply keeps_ret.
Qed.

Lemma keeps_st_folium m click :
  keeps (quiet a) (st_folium m click) (λ v, v = click).
Proof.
  unfold st_folium. eapply keeps_bind; [apply keeps_write; simpl; tauto|].
  intros _ _. by apply keeps_ret.
Qed.

Lemma keeps_get_choropleth_fig :
  keeps (quiet a) get_choropleth_fig (λ v, default None v = a).
Proof. intros w [Hart Hscreen]. by repeat split. Qed.

Lemma keeps_plot_yield_obs crop_yield :
  keeps (quiet a) (plot_yield_obs crop_yield) (λ _, True).
Proof.
  intros w Hw. unfold plot_yield_obs, cache_resource.
  destruct (assoc _ _); by split.
Qed.

Lemma keeps_plot_eo_var eo_df selected_eo :
  keeps (quiet a) (plot_eo_var eo_df selected_eo) (λ _, True).
Proof.
  intros w Hw. unfold plot_eo_var, cache_resource.
  destruct (assoc _ _); by split.
Qed.
End quiet_steps.

Lemma keeps_init_choropleth_fig (a : option viz.Figure)
    (stored : option (option viz.Figure)) :
  default None stored = a →
  keeps (quiet a)
    (match stored with
     | None => set_choropleth_fig None
     | Some _ => mret ()
     end) (λ _, True).
Proof.
  intros Hstored. destruct stored as [v|]; [by apply keeps_ret|].
  simpl in Hstored. subst a. intros w [Hart Hscreen]. by repeat split.
Qed.

Create HintDb script discriminated.
#[local] Hint Resolve keeps_lift
  keeps_selectbox keeps_radio keeps_button keeps_st_folium
  keeps_get_choropleth_fig keeps_plot_yield_obs keeps_plot_eo_var
  keeps_init_choropleth_fig : script.
#[local] Hint Extern 1 (keeps _ (st.write _) _) =>
  apply keeps_write; simpl; tauto : script.
#[local] Hint Extern 1 (keeps _ (st.markdown _) _) =>
  apply keeps_write; simpl; tauto : script.
#[local] Hint Extern 1 (keeps _ (st.title _) _) =>
  apply keeps_write; simpl; tauto : script.
#[local] Hint Extern 1 (keeps _ (st.success _) _) =>
  apply keeps_write; simpl; tauto : script.
#[local] Hint Extern 1 (keeps _ (st.warning _) _) =>
  apply keeps_write; simpl; tauto : script.
#[local] Hint Extern 1 (keeps _ (st.info _) _) =>
  apply keeps_write; simpl; tauto : script.
#[local] Hint Extern 1 (keeps _ (st.pyplot _) _) =>
  apply keeps_write; simpl; tauto : script.

(** One step of a script kept under an invariant: the head of a bind by
    the lemma of its primitive, the continuation left as the goal. *)
Ltac script_step :=
  lazymatch goal with
  | |- keeps _ (mret _) _ => apply keeps_ret; try done
  | |- keeps _ (raise _) _ => apply keeps_raise
  | |- keeps _ st.stop _ => apply keeps_stop
  | |- keeps _ (_ ≫= _) _ =>
    eapply keeps_bind; [solve [eauto with script]|intros ? ?]
  | |- keeps _ _ _ =>
    eapply keeps_weaken; [solve [eauto with script]|done]
  end.

Lemma display_region_quiet
    (cape_eo : list EOObs.row) (viewer_yield : list YieldObs.row)
    (a : option viz.Figure) (ui : interaction) (fnid : string) :
  keeps (quiet a) (display_region cape_eo viewer_yield ui fnid) (λ _, True).
Proof.
  unfold display_region.
  eapply keeps_bind with (φ := λ _, True).
  { destruct (eo_df cape_eo fnid); script_step. }
  intros selected_eo_var _.
  eapply keeps_bind with (φ := λ _, True).
  { destruct (crop_yield viewer_yield fnid); repeat script_step. }
  intros _ _. destruct (eo_df cape_eo fnid); repeat script_step.
Qed.

Lemma yield_climate_quiet
    (cape_eo : list EOObs.row) (viewer_yield : list YieldObs.row)
    (gdf : list Region.row) (geojson : GeoJSON)
    (a : option viz.Figure) (ui : interaction) :
  keeps (quiet a) (yield_climate cape_eo viewer_yield gdf geojson ui)
    (λ _, True).
Proof.
  unfold yield_climate. script_step.
  eapply keeps_bind; [apply keeps_st_folium|]. intros map_output _.
  eapply keeps_bind with (φ := λ _, True).
  { destruct map_output; repeat script_step. }
  intros [fnid|] _; [|script_step].
  case_decide; [script_step|].
  apply display_region_quiet.
Qed.

(** ** The stored choropleth and the update trigger *)

Lemma quiet_halts (a : option viz.Figure) (h : halt) (w : world) :
  quiet a w → shows_stored a (inr h) w.
Proof.
  intros [Hart Hscreen]. split; [done|]. split; [|split; [done|]].
  - intros f Hf. by destruct (Hscreen f).
  - intros _. exact Hscreen.
Qed.

Lemma display_stored (a : option viz.Figure) :
  hoare (quiet a)
    (stored ← get_choropleth_fig;
     match stored with
     | Some (Some fig) => st.plotly_chart fig
     | _ => mret ()
     end)
    (shows_stored a).
Proof.
  intros w [Hart Hscreen]. unfold artifact in Hart.
  unfold mbind, script_bind, get_choropleth_fig.
  destruct (choropleth_fig w) as [[fig|]|] eqn:Hstored; simpl in *; subst a.
  - split; [unfold artifact; simpl; by rewrite Hstored|]. split; [|split].
    + intros f [Hin|Heq%list_elem_of_singleton]%elem_of_app.
      * by destruct (Hscreen f).
      * by injection Heq as ->.
    + intros _ f Hf. injection Hf as <-. apply elem_of_app. right. left.
    + by intros Hhalt.
  - split; [unfold artifact; by rewrite Hstored|]. split; [|split; [done|]].
    + intros f Hf. by destruct (Hscreen f).
    + by intros Hhalt.
  - split; [unfold artifact; by rewrite Hstored|]. split; [|split; [done|]].
    + intros f Hf. by destruct (Hscreen f).
    + by intros Hhalt.
Qed.

Ltac hoare_step :=
  eapply hoare_bind_keeps;
    [solve [eauto with script]|apply quiet_halts|intros ? ?].

Lemma historical_forecasts_untriggered
    (yield_fcst : list Forecast.row) (gdf : list Region.row)
    (geojson : GeoJSON) (a : option viz.Figure) (ui : interaction) :
  update_clicked ui = false →
  hoare (quiet a) (historical_forecasts yield_fcst gdf geojson ui)
    (shows_stored a).
Proof.
  intros Hupdate. unfold historical_forecasts.
  do 6 hoare_step.
  eapply hoare_bind_keeps with (φ := λ _, True);
    [|apply quiet_halts|intros _ _].
  { destruct (yrs _ _ _); repeat script_step. }
  do 5 hoare_step.
  eapply hoare_bind_keeps; [apply keeps_button|apply quiet_halts|].
  intros update ->. rewrite Hupdate.
  eapply hoare_bind_keeps with (φ := λ _, True);
    [by apply keeps_ret|apply quiet_halts|intros _ _].
  apply display_stored.
Qed.

(** Symbolic execution of the straight-line part of a run. *)
Ltac run_script :=
  cbv [mbind script_bind mret script_ret st.title st.write st.radio
       st.markdown st.selectbox st.warning st.info st.success st.stop
       st.button st.plotly_chart st.pyplot st_folium get_choropleth_fig
       set_choropleth_fig lift raise];
  cbn [screen choropleth_fig cache_plot_yield_obs cache_plot_eo_var
       cache_create_map app].

Lemma forecast_page_halted_run
    (cape_eo : list EOObs.row) (viewer_yield : list YieldObs.row)
    (yield_fcst : list Forecast.row) (gdf : list Region.row)
    (geojson : GeoJSON) (ui : interaction) (w : world) :
  let selected_country := st.choice (countries yield_fcst) (pick_country ui) in
  let fnids := country_fnids yield_fcst selected_country in
  let selected_season := st.choice (seasons yield_fcst fnids) (pick_season ui) in
  on_forecast_page ui →
  yrs yield_fcst fnids selected_season = [] →
  ∃ w',
    rerun cape_eo viewer_yield yield_fcst gdf geojson ui w = (inr Stop, w')
    ∧ screen w' =
        [ Title "Sub-Saharan Africa Crop Forecast Viewer";
          Radio "Page" pages (Some "Historical Forecasts");
          Markdown "### View Historical Forecast and Error";
          Selectbox "Variable" (Str <$> variables)
            (Str <$> st.choice variables (pick_variable ui));
          Selectbox "Country" (Str <$> countries yield_fcst)
            (Str <$> selected_country);
          Selectbox "Season" (Str <$> seasons yield_fcst fnids)
            (Str <$> selected_season);
          Warning "No forecast years available for the selected conditions." ].
Proof.
  intros selected_country fnids selected_season Hpage Hnone.
  subst selected_country fnids selected_season.
  unfold on_forecast_page in Hpage.
  unfold rerun, main. run_script. rewrite Hpage.
  rewrite (decide_False (P := Some "Historical Forecasts"
                              = Some "Yield & Climate")) by discriminate.
  rewrite decide_True by done.
  unfold historical_forecasts. run_script.
  destruct (choropleth_fig w) as [stored|];
    cbn [screen choropleth_fig cache_create_map]; rewrite Hnone;
    cbn [screen choropleth_fig cache_create_map app];
    eexists; (split; reflexivity).
Qed.

Lemma main_untriggered
    (cape_eo : list EOObs.row) (viewer_yield : list YieldObs.row)
    (yield_fcst : list Forecast.row) (gdf : list Region.row)
    (geojson : GeoJSON) (a : option viz.Figure) (ui : interaction) :
  ¬ trigger_fires ui →
  hoare (quiet a) (main cape_eo viewer_yield yield_fcst gdf geojson ui)
    (λ r w,
       artifact w = a
       ∧ (∀ f, PlotlyChart f ∈ screen w → a = Some f)
       ∧ (on_forecast_page ui → r = inl () →
          ∀ f, a = Some f → PlotlyChart f ∈ screen w)
       ∧ (r ≠ inl () → ∀ f, PlotlyChart f ∉ screen w)).
Proof.
  intros Hquiet.
  assert (∀ h w, quiet a w →
            artifact w = a
            ∧ (∀ f, PlotlyChart f ∈ screen w → a = Some f)
            ∧ (on_forecast_page ui → @inr unit halt h = inl () →
               ∀ f, a = Some f → PlotlyChart f ∈ screen w)
            ∧ (@inr unit halt h ≠ inl () → ∀ f, PlotlyChart f ∉ screen w))
    as Hhalt.
  { intros h w Hw. destruct (quiet_halts _ h _ Hw) as (? & ? & _ & ?).
    by repeat split. }
  unfold main.
  eapply hoare_bind_keeps; [solve [eauto with script]|exact Hhalt|intros _ _].
  eapply hoare_bind_keeps; [apply keeps_radio|exact Hhalt|].
  intros page ->.
  destruct (decide (on_forecast_page ui)) as [Hpage|Hpage].
  - assert (update_clicked ui = false) as Hupdate.
    { destruct (update_clicked ui) eqn:Hupd; [|done].
      destruct Hquiet. by split. }
    unfold on_forecast_page in Hpage. rewrite Hpage.
    rewrite (decide_False (P := Some "Historical Forecasts"
                                = Some "Yield & Climate")) by discriminate.
    rewrite decide_True by done.
    eapply hoare_bind_keeps with (φ := λ _, True);
      [by apply keeps_ret|exact Hhalt|intros _ _].
    intros w Hw.
    destruct (historical_forecasts_untriggered yield_fcst gdf geojson
                a ui Hupdate w Hw) as (? & ? & ? & ?).
    by repeat split.
  - unfold on_forecast_page in Hpage.
    rewrite (decide_False (P := st.choice pages (pick_page ui)
                                = Some "Historical Forecasts")) by done.
    eapply hoare_bind_keeps with (φ := λ _, True);
      [|exact Hhalt|intros _ _].
    { case_decide; [apply yield_climate_quiet|by apply keeps_ret]. }
    intros w [Hart Hscreen]. simpl. split; [done|]. split; [|split; [done|]].
    + intros f Hf. by destruct (Hscreen f).
    + by intros Hhalt'.
Qed.

(** C6, as the script has it: in every run in which the update trigger
    does not fire, whatever else the user changed, the stored artifact
    (null included) is unchanged and no choropleth but the stored one is
    drawn; a run of the forecast page that reaches its end draws the
    stored artifact when it is not null; a run that halts draws no
    choropleth at all, and a run of the forecast page for a country and
    season without available years is such a run: it stops at the year
    check with the artifact stored and not drawn. *)
Theorem artifact_changes_only_on_trigger
    (cape_eo : list EOObs.row) (viewer_yield : list YieldObs.row)
    (yield_fcst : list Forecast.row) (gdf : list Region.row)
    (geojson : GeoJSON) (ui : interaction) (w : world) :
  ¬ trigger_fires ui →
  let run := rerun cape_eo viewer_yield yield_fcst gdf geojson ui w in
  let selected_country := st.choice (countries yield_fcst) (pick_country ui) in
  let fnids := country_fnids yield_fcst selected_country in
  let selected_season := st.choice (seasons yield_fcst fnids) (pick_season ui) in
  artifact run.2 = artifact w
  ∧ (∀ f, PlotlyChart f ∈ screen run.2 → artifact w = Some f)
  ∧ (on_forecast_page ui → run.1 = inl () →
     ∀ f, artifact w = Some f → PlotlyChart f ∈ screen run.2)
  ∧ (run.1 ≠ inl () → ∀ f, PlotlyChart f ∉ screen run.2)
  ∧ (on_forecast_page ui → yrs yield_fcst fnids selected_season = [] →
     run.1 = inr Stop ∧ ∀ f, PlotlyChart f ∉ screen run.2).
Proof.
  intros Hquiet run selected_country fnids selected_season.
  assert (artifact run.2 = artifact w
          ∧ (∀ f, PlotlyChart f ∈ screen run.2 → artifact w = Some f)
          ∧ (on_forecast_page ui → run.1 = inl () →
             ∀ f, artifact w = Some f → PlotlyChart f ∈ screen run.2)
          ∧ (run.1 ≠ inl () → ∀ f, PlotlyChart f ∉ screen run.2))
    as (Hart & Honly & Hshown & Hhidden).
  { subst run. unfold rerun.
    apply (main_untriggered cape_eo viewer_yield yield_fcst gdf geojson
             (artifact w) ui Hquiet).
    split; [done|]. intros f Hf. by apply elem_of_nil in Hf. }
  split; [done|]. split; [done|]. split; [done|]. split; [done|].
  intros Hpage Hnone.
  destruct (forecast_page_halted_run cape_eo viewer_yield yield_fcst gdf
              geojson ui w Hpage Hnone) as (w' & Hrun & _).
  assert (run.1 = inr Stop) as Hstop by (subst run; by rewrite Hrun).
  split; [done|]. apply Hhidden. by rewrite Hstop.
Qed.

Lemma artifact_changes_only_on_trigger_witness :
  (¬ trigger_fires (sample.kenya_long_2019 false)
   ∧ let run := sample.rerun (sample.kenya_long_2019 false) sample.rendered in
     artifact run.2 = artifact sample.rendered
     ∧ PlotlyChart sample.kenya_2018_fig ∈ screen run.2)
  ∧ (¬ trigger_fires (sample.somalia_gu false)
     ∧ let run := sample.rerun (sample.somalia_gu false) sample.rendered in
       artifact run.2 = artifact sample.rendered
       ∧ run.1 = inr Stop
       ∧ ∀ f, PlotlyChart f ∉ screen run.2).
Proof.
  assert (¬ trigger_fires (sample.kenya_long_2019 false)) as Hkenya.
  { intros [_ Hupdate]. discriminate Hupdate. }
  assert (¬ trigger_fires (sample.somalia_gu false)) as Hsomalia.
  { intros [_ Hupdate]. discriminate Hupdate. }
  split.
  - split; [exact Hkenya|].
    destruct (artifact_changes_only_on_trigger sample.cape_eo
                sample.viewer_yield sample.yield_fcst sample.gdf
                sample.geojson (sample.kenya_long_2019 false) sample.rendered
                Hkenya) as (Hart & _ & Hshown & _).
    split; [exact Hart|]. exact (Hshown eq_refl eq_refl _ eq_refl).
  - split; [exact Hsomalia|].
    destruct (artifact_changes_only_on_trigger sample.cape_eo
                sample.viewer_yield sample.yield_fcst sample.gdf
                sample.geojson (sample.somalia_gu false) sample.rendered
                Hsomalia) as (Hart & _ & _ & _ & Hhalted).
    split; [exact Hart|]. exact (Hhalted eq_refl eq_refl).
Defined.

(** C6, as worded, fails: a run that changes the selection to a country
    and season without available years stops before the stored
    choropleth is drawn, so the artifact, though still stored, is not the
    displayed one after that step. *)
Lemma stored_map_hidden_by_halted_run :
  ¬ (∀ cape_eo viewer_yield yield_fcst gdf geojson ui w f,
       ¬ trigger_fires ui → on_forecast_page ui → artifact w = Some f →
       let run := rerun cape_eo viewer_yield yield_fcst gdf geojson ui w in
       artifact run.2 = Some f ∧ PlotlyChart f ∈ screen run.2).
Proof.
  intros Hall.
  destruct (Hall sample.cape_eo sample.viewer_yield sample.yield_fcst
              sample.gdf sample.geojson (sample.somalia_gu false)
              sample.rendered sample.kenya_2018_fig) as [_ Hshown].
  - intros [_ Hupdate]. discriminate Hupdate.
  - reflexivity.
  - reflexivity.
  - vm_compute in Hshown.
    repeat (apply elem_of_cons in Hshown as [Hshown|Hshown];
            [discriminate Hshown|]).
    by apply elem_of_nil in Hshown.
Qed.

(** ** Runs that halt *)

Lemma yrs_nil_iff
    (yield_fcst : list Forecast.row) (fnids : list string)
    (season : option string) :
  yrs yield_fcst fnids season = [] ↔
  ∀ r, r ∈ yield_fcst → Forecast.fnid r ∈ fnids →
       Some (Forecast.season r) = season → Forecast.year r = None.
Proof.
  split.
  - intros Hnil r Hin Hf Hs.
    destruct (Forecast.year r) as [y|] eqn:Hy; [|done].
    assert (y ∈ yrs yield_fcst fnids season) as Hy'.
    { apply elem_of_yrs. by exists r. }
    rewrite Hnil in Hy'. by apply elem_of_nil in Hy'.
  - intros Hall. destruct (yrs yield_fcst fnids season) as [|y ys] eqn:Hyrs;
      [done|].
    assert (y ∈ yrs yield_fcst fnids season) as Hy by (rewrite Hyrs; left).
    apply elem_of_yrs in Hy as (r & Hin & Hf & Hs & Hy).
    rewrite (Hall r Hin Hf Hs) in Hy. discriminate.
Qed.

(** C5: when no forecast row of the selected country's regions and the
    selected season has a year, the run of the forecast page stops at the
    year check: it is not an error, the last thing drawn is the specific
    warning, neither the year, model and lead selectors nor the update
    button nor any choropleth is drawn, and nothing is rendered or
    stored. *)
Theorem no_years_halts_flow
    (cape_eo : list EOObs.row) (viewer_yield : list YieldObs.row)
    (yield_fcst : list Forecast.row) (gdf : list Region.row)
    (geojson : GeoJSON) (ui : interaction) (w : world) :
  let selected_country := st.choice (countries yield_fcst) (pick_country ui) in
  let fnids := country_fnids yield_fcst selected_country in
  let selected_season := st.choice (seasons yield_fcst fnids) (pick_season ui) in
  on_forecast_page ui →
  (∀ r, r ∈ yield_fcst → Forecast.fnid r ∈ fnids →
        Some (Forecast.season r) = selected_season → Forecast.year r = None) →
  ∃ w',
    rerun cape_eo viewer_yield yield_fcst gdf geojson ui w = (inr Stop, w')
    ∧ screen w' =
        [ Title "Sub-Saharan Africa Crop Forecast Viewer";
          Radio "Page" pages (Some "Historical Forecasts");
          Markdown "### View Historical Forecast and Error";
          Selectbox "Variable" (Str <$> variables)
            (Str <$> st.choice variables (pick_variable ui));
          Selectbox "Country" (Str <$> countries yield_fcst)
            (Str <$> selected_country);
          Selectbox "Season" (Str <$> seasons yield_fcst fnids)
            (Str <$> selected_season);
          Warning "No forecast years available for the selected conditions." ]
    ∧ artifact w' = artifact w
    ∧ cache_create_map w' = cache_create_map w.
Proof.
  intros selected_country fnids selected_season Hpage Hnone.
  apply yrs_nil_iff in Hnone. subst selected_country fnids selected_season.
  unfold on_forecast_page in Hpage.
  unfold rerun, main. run_script. rewrite Hpage.
  rewrite (decide_False (P := Some "Historical Forecasts"
                              = Some "Yield & Climate")) by discriminate.
  rewrite decide_True by done.
  unfold historical_forecasts. run_script.
  destruct (choropleth_fig w) as [stored|] eqn:Hstored;
    cbn [screen choropleth_fig cache_create_map]; rewrite Hnone;
    cbn [screen choropleth_fig cache_create_map app];
    eexists; (split; [reflexivity|]);
    unfold artifact; cbn [screen choropleth_fig cache_create_map];
    by rewrite ?Hstored.
Qed.

Lemma no_years_halts_flow_witness :
  ∃ w',
    sample.rerun (sample.somalia_gu true) sample.rendered = (inr Stop, w')
    ∧ screen w' =
        [ Title "Sub-Saharan Africa Crop Forecast Viewer";
          Radio "Page" pages (Some "Historical Forecasts");
          Markdown "### View Historical Forecast and Error";
          Selectbox "Variable" (Str <$> variables) (Some (Str "yield_fcst"));
          Selectbox "Country" [Str "Kenya"; Str "Somalia"]
            (Some (Str "Somalia"));
          Selectbox "Season" [Str "gu"] (Some (Str "gu"));
          Warning "No forecast years available for the selected conditions." ]
    ∧ artifact w' = artifact sample.rendered
    ∧ cache_create_map w' = cache_create_map sample.rendered.
Proof.
  apply (no_years_halts_flow sample.cape_eo sample.viewer_yield
           sample.yield_fcst sample.gdf sample.geojson
           (sample.somalia_gu true) sample.rendered).
  - reflexivity.
  - apply yrs_nil_iff. reflexivity.
Defined.

(** A click on a feature whose region id no row of [gdf] carries: the
    lookup raises IndexError, which nothing catches, and the run ends
    there with only the map drawn. *)
Lemma region_lookup_absent_raises
    (cape_eo : list EOObs.row) (viewer_yield : list YieldObs.row)
    (yield_fcst : list Forecast.row) (gdf : list Region.row)
    (geojson : GeoJSON) (ui : interaction) (w : world)
    (drawing : Feature.properties) :
  st.choice pages (pick_page ui) = Some "Yield & Climate" →
  last_active_drawing ui = Some drawing →
  (∀ r, r ∈ gdf → Region.fnid r ≠ Feature.fnid drawing) →
  ∃ w',
    rerun cape_eo viewer_yield yield_fcst gdf geojson ui w
      = (inr (Crash (IndexError "single positional indexer is out-of-bounds")),
         w')
    ∧ screen w' =
        [ Title "Sub-Saharan Africa Crop Forecast Viewer";
          Radio "Page" pages (Some "Yield & Climate");
          Markdown "### Click a region to view EO and crop data";
          Folium (viz.build_base_map geojson) ].
Proof.
  intros Hpage Hclick Habsent.
  assert (region_row gdf (Feature.fnid drawing)
          = Raised (IndexError "single positional indexer is out-of-bounds"))
    as Hrow.
  { unfold region_row. rewrite filter_nil_intro; [done|].
    intros r Hin Heq. by apply (Habsent r). }
  unfold rerun, main. run_script. rewrite Hpage.
  rewrite decide_True by done.
  unfold yield_climate. run_script. rewrite Hclick, Hrow.
  eexists. split; reflexivity.
Qed.

(** C2: the sample GeoJSON draws a Tanzanian region that the region
    collection lacks; a click on it ends the run with an uncaught
    IndexError, no message having been drawn. *)
Theorem region_lookup_absent_crashes :
  let ui := sample.click (Feature.mk "TZ3001" "Tanzania" "Arusha" "Meru") in
  Feature.mk "TZ3001" "Tanzania" "Arusha" "Meru" ∈ sample.geojson
  ∧ (∀ r, r ∈ sample.gdf → Region.fnid r ≠ "TZ3001")
  ∧ ∃ w',
      sample.rerun ui sample.fresh
        = (inr (Crash (IndexError "single positional indexer is out-of-bounds")),
           w')
      ∧ screen w' =
          [ Title "Sub-Saharan Africa Crop Forecast Viewer";
            Radio "Page" pages (Some "Yield & Climate");
            Markdown "### Click a region to view EO and crop data";
            Folium (viz.build_base_map sample.geojson) ].
Proof.
  assert (∀ r, r ∈ sample.gdf → Region.fnid r ≠ "TZ3001") as Habsent.
  { intros r Hin.
    repeat (apply elem_of_cons in Hin as [->|Hin]; [discriminate|]).
    by apply elem_of_nil in Hin. }
  split; [compute_done|]. split; [exact Habsent|].
  by apply region_lookup_absent_raises with
    (drawing := Feature.mk "TZ3001" "Tanzania" "Arusha" "Meru").
Qed.

(** ** The render cache *)

Section cache.
Context {X K V : Type} `{EqDecision K} (key : X → K) (body : X → result V).

Lemma assoc_cons_eq (c : list (K * V)) (k : K) (v : V) :
  assoc ((k, v) :: c) k = Some v.
Proof. simpl. by rewrite decide_True. Qed.

(** A call that returned is answered from the cache when repeated. *)
Lemma cache_resource_again (c c1 : list (K * V)) (x : X) (v : V) (s1 : served) :
  cache_resource key body c x = (Ok v, c1, s1) →
  cache_resource key body c1 x = (Ok v, c1, Hit).
Proof.
  unfold cache_resource.
  destruct (assoc c (key x)) as [v0|] eqn:Hc.
  - intros Heq; injection Heq as -> -> _. by rewrite Hc.
  - destruct (body x) as [v0|e]; [|done].
    intros Heq; injection Heq as -> <- _. by rewrite assoc_cons_eq.
Qed.

(** A call that returned leaves its value in the cache under its key. *)
Lemma cache_resource_stores (c c1 : list (K * V)) (x : X) (v : V) (s1 : served) :
  cache_resource key body c x = (Ok v, c1, s1) →
  assoc c1 (key x) = Some v.
Proof.
  unfold cache_resource.
  destruct (assoc c (key x)) as [v0|] eqn:Hc.
  - by intros Heq; injection Heq as -> <- _.
  - destruct (body x) as [v0|e]; [|done].
    intros Heq; injection Heq as -> <- _. by rewrite assoc_cons_eq.
Qed.

Lemma cache_resource_miss (c c1 : list (K * V)) (x : X) (r : result V) :
  cache_resource key body c x = (r, c1, Miss) → r = body x.
Proof.
  unfold cache_resource. destruct (assoc c (key x)); [done|].
  destruct (body x); by intros Heq; injection Heq as <- _.
Qed.

Lemma cache_resource_returns (c : list (K * V)) (x : X) (v : V) :
  body x = Ok v →
  ∃ v' c1 s1, cache_resource key body c x = (Ok v', c1, s1).
Proof.
  intros Hbody. unfold cache_resource.
  destruct (assoc c (key x)); [by eexists _, _, _|].
  rewrite Hbody. by eexists _, _, _.
Qed.
End cache.

Lemma create_map_returns (a : viz.args) (v : string) :
  viz.selected_variable a = Some v → v ∈ variables →
  ∃ fig, viz.create_map a = Ok fig.
Proof.
  intros Hvar Hv. unfold viz.create_map. rewrite Hvar.
  destruct (default (v, "") (viz.label_map !! v)) as [var_label var_unit].
  destruct (viz.df_filt a) as [|r rows]; [by eexists|].
  assert (is_Some (Forecast.column v)) as [col Hcol].
  { unfold variables, Forecast.value_columns in Hv.
    repeat (apply elem_of_cons in Hv as [->|Hv]; [by eexists|]).
    by apply elem_of_nil in Hv. }
  unfold viz.getitem. simpl. rewrite Hcol. by eexists.
Qed.

(** C7: [create_map] is a function of its arguments, and for a variable
    the page offers it returns a figure; after the first call that figure
    is stored in the cache under the key of the arguments, and triggering
    the render a second time with the same arguments returns the very
    figure of the first call, taken from the cache (a hit, the cache
    unchanged) and not computed again: the second call returns it
    whatever the decorated body would compute.  The first call, unless
    itself a hit, computed it. *)
Theorem create_map_retrigger_hits
    (c : list (create_map_key * viz.Figure)) (a : viz.args) (v : string) :
  viz.selected_variable a = Some v → v ∈ variables →
  ∃ fig c1 s1,
    cached_create_map c a = (Ok fig, c1, s1)
    ∧ cached_create_map c1 a = (Ok fig, c1, Hit)
    ∧ (s1 = Miss → viz.create_map a = Ok fig)
    ∧ assoc c1 (cache_key a) = Some fig
    ∧ (∀ body : viz.args → result viz.Figure,
         cache_resource cache_key body c1 a = (Ok fig, c1, Hit)).
Proof.
  intros Hvar Hv.
  destruct (create_map_returns a v Hvar Hv) as [fig0 Hfig0].
  destruct (cache_resource_returns cache_key viz.create_map c a fig0 Hfig0)
    as (fig & c1 & s1 & Hfirst).
  assert (assoc c1 (cache_key a) = Some fig) as Hstored.
  { by apply (cache_resource_stores cache_key viz.create_map c c1 a fig s1). }
  exists fig, c1, s1. split; [done|]. split; [|split; [|split; [done|]]].
  - by apply (cache_resource_again cache_key viz.create_map c c1 a fig s1).
  - intros ->. symmetry.
    by apply (cache_resource_miss cache_key viz.create_map c c1 a).
  - intros body. unfold cache_resource. by rewrite Hstored.
Qed.

Lemma create_map_retrigger_hits_witness :
  ∃ fig c1 s1,
    cached_create_map [] (sample.kenya_long 2018) = (Ok fig, c1, s1)
    ∧ cached_create_map c1 (sample.kenya_long 2018) = (Ok fig, c1, Hit)
    ∧ (s1 = Miss → viz.create_map (sample.kenya_long 2018) = Ok fig)
    ∧ assoc c1 (cache_key (sample.kenya_long 2018)) = Some fig
    ∧ (∀ body : viz.args → result viz.Figure,
         cache_resource cache_key body c1 (sample.kenya_long 2018)
         = (Ok fig, c1, Hit)).
Proof.
  apply (create_map_retrigger_hits [] (sample.kenya_long 2018) "yield_fcst").
  - reflexivity.
  - compute_done.
Defined.

(** ** Runs of the forecast page that reach the end *)

Lemma choice_variables (pick : nat) :
  ∃ v, st.choice variables pick = Some v ∧ v ∈ variables.
Proof.
  unfold st.choice. destruct (variables !! pick) as [v|] eqn:Hv.
  - exists v. split; [done|]. by apply list_elem_of_lookup_2 in Hv.
  - eexists. split; [reflexivity|]. left.
Qed.

Lemma choice_any {A} (options : list A) (x : A) :
  x ∈ options → ∃ pick, st.choice options pick = Some x.
Proof.
  intros [i Hi]%list_elem_of_lookup. exists i. unfold st.choice. by rewrite Hi.
Qed.

(** A run of the forecast page for a selection with available years
    reaches its end: every selector and the button are drawn, then the
    stored artifact; with the button clicked, the artifact is what the
    cached [create_map] returned for the selection. *)
Lemma forecast_page_run
    (cape_eo : list EOObs.row) (viewer_yield : list YieldObs.row)
    (yield_fcst : list Forecast.row) (gdf : list Region.row)
    (geojson : GeoJSON) (ui : interaction) (w : world) (lo hi : Z) :
  let selected_country := st.choice (countries yield_fcst) (pick_country ui) in
  let fnids := country_fnids yield_fcst selected_country in
  let selected_season := st.choice (seasons yield_fcst fnids) (pick_season ui) in
  let a := selected_args yield_fcst gdf geojson ui lo hi in
  on_forecast_page ui →
  Series_min (yrs yield_fcst fnids selected_season) = Some lo →
  Series_max (yrs yield_fcst fnids selected_season) = Some hi →
  ∃ w',
    rerun cape_eo viewer_yield yield_fcst gdf geojson ui w = (inl (), w')
    ∧ screen w' =
        [ Title "Sub-Saharan Africa Crop Forecast Viewer";
          Radio "Page" pages (Some "Historical Forecasts");
          Markdown "### View Historical Forecast and Error";
          Selectbox "Variable" (Str <$> variables)
            (Str <$> viz.selected_variable a);
          Selectbox "Country" (Str <$> countries yield_fcst)
            (Str <$> selected_country);
          Selectbox "Season" (Str <$> seasons yield_fcst fnids)
            (Str <$> selected_season);
          Selectbox "Year" (Int <$> year_range lo hi)
            (Int <$> viz.selected_year a);
          Selectbox "Model" (Str <$> models yield_fcst)
            (Str <$> viz.selected_model a);
          Selectbox "Lead" (Int <$> leads yield_fcst)
            (Int <$> viz.selected_lead a);
          Button "Update Map" (update_clicked ui) ]
        ++ match artifact w' with
           | Some fig => [PlotlyChart fig]
           | None => []
           end
    ∧ if update_clicked ui
      then ∃ fig s,
             cached_create_map (cache_create_map w) a
               = (Ok fig, cache_create_map w', s)
             ∧ artifact w' = Some fig
      else artifact w' = artifact w ∧ cache_create_map w' = cache_create_map w.
Proof.
  intros selected_country fnids selected_season a Hpage Hmin Hmax.
  destruct (choice_variables (pick_variable ui)) as (v & Hvar & Hv).
  destruct (create_map_returns a v Hvar Hv) as [fig0 Hfig0].
  destruct (cache_resource_returns cache_key viz.create_map
              (cache_create_map w) a fig0 Hfig0) as (fig & c1 & s1 & Hcall).
  fold (cached_create_map (cache_create_map w) a) in Hcall.
  subst a selected_country fnids selected_season.
  unfold on_forecast_page in Hpage. unfold selected_args in *.
  unfold rerun, main. run_script. rewrite Hpage.
  rewrite (decide_False (P := Some "Historical Forecasts"
                              = Some "Yield & Climate")) by discriminate.
  rewrite decide_True by done.
  unfold historical_forecasts. run_script.
  rewrite Hmin, Hmax.
  destruct (yrs _ _ _) as [|y ys] eqn:Hyrs; [discriminate|].
  unfold create_map, artifact.
  destruct (choropleth_fig w) as [stored|] eqn:Hstored;
    cbn [screen choropleth_fig cache_create_map cache_plot_yield_obs
         cache_plot_eo_var int fst snd];
    destruct (update_clicked ui);
    cbn [screen choropleth_fig cache_create_map cache_plot_yield_obs
         cache_plot_eo_var int fst snd];
    rewrite ?Hcall; run_script; rewrite ?Hstored;
    try (destruct stored as [f|]);
    eexists; (split; [reflexivity|]);
    cbn [screen choropleth_fig cache_create_map default];
    rewrite ?Hstored; split; try reflexivity; eauto.
Qed.

(** C10: when the selected (country, season) has at least one available
    year, the run draws the year selector with exactly the integers from
    the least to the greatest available year as its options, years
    without any forecast row included; the user can pick each of them,
    and for one that is no available year the filter of [create_map]
    selects nothing, whatever the model and the lead. *)
Theorem year_options_contiguous
    (cape_eo : list EOObs.row) (viewer_yield : list YieldObs.row)
    (yield_fcst : list Forecast.row) (gdf : list Region.row)
    (geojson : GeoJSON) (ui : interaction) (w : world) :
  let selected_country := st.choice (countries yield_fcst) (pick_country ui) in
  let fnids := country_fnids yield_fcst selected_country in
  let selected_season := st.choice (seasons yield_fcst fnids) (pick_season ui) in
  let available := yrs yield_fcst fnids selected_season in
  on_forecast_page ui →
  available ≠ [] →
  ∃ lo hi w',
    lo ∈ available ∧ hi ∈ available
    ∧ (∀ y, y ∈ available → lo ≤ y ≤ hi)
    ∧ rerun cape_eo viewer_yield yield_fcst gdf geojson ui w = (inl (), w')
    ∧ Selectbox "Year" (Int <$> seqZ lo (hi - lo + 1))
        (Int <$> st.choice (seqZ lo (hi - lo + 1)) (pick_year ui))
      ∈ screen w'
    ∧ (∀ y, y ∈ seqZ lo (hi - lo + 1) ↔ lo ≤ y ≤ hi)
    ∧ (∀ y, lo ≤ y ≤ hi →
            ∃ pick, st.choice (seqZ lo (hi - lo + 1)) pick = Some y)
    ∧ (∀ y geo gdf' var country model lead,
         lo ≤ y ≤ hi → y ∉ available →
         viz.df_filt (viz.mkArgs yield_fcst geo gdf' var fnids country
                        selected_season (Some y) model lead) = []).
Proof.
  intros selected_country fnids selected_season available Hpage Hne.
  destruct (year_range_spec yield_fcst fnids selected_season Hne)
    as (lo & hi & Hmin & Hmax & Hlo & Hhi & Hbounds & Hrange & Hmem & Hgap).
  assert (Series_min available = Some lo) as Hmin'.
  { subst available. destruct (Series_min _) as [z|]; simpl in Hmin;
      [by injection Hmin as ->|discriminate]. }
  assert (Series_max available = Some hi) as Hmax'.
  { subst available. destruct (Series_max _) as [z|]; simpl in Hmax;
      [by injection Hmax as ->|discriminate]. }
  destruct (forecast_page_run cape_eo viewer_yield yield_fcst gdf geojson
              ui w lo hi Hpage Hmin' Hmax') as (w' & Hrun & Hscreen & _).
  exists lo, hi, w'. rewrite <- Hrange.
  split; [done|]. split; [done|]. split; [done|]. split; [done|].
  split; [|split; [done|split]].
  - rewrite Hscreen. apply elem_of_app. left.
    do 6 right. left.
  - intros y Hy. apply choice_any. by apply Hmem.
  - intros y geo gdf' var country model lead Hy Hgap'.
    apply Hgap; [by apply Hmem|done].
Qed.

Lemma year_options_contiguous_witness :
  (2019 ∉ yrs sample.yield_fcst ["KE2001"; "KE2002"] (Some "long"))
  ∧ ∃ lo hi w',
      lo ∈ yrs sample.yield_fcst ["KE2001"; "KE2002"] (Some "long")
      ∧ hi ∈ yrs sample.yield_fcst ["KE2001"; "KE2002"] (Some "long")
      ∧ (∀ y, y ∈ yrs sample.yield_fcst ["KE2001"; "KE2002"] (Some "long") →
              lo ≤ y ≤ hi)
      ∧ sample.rerun (sample.kenya_long_2019 false) sample.fresh = (inl (), w')
      ∧ Selectbox "Year" (Int <$> seqZ lo (hi - lo + 1))
          (Int <$> st.choice (seqZ lo (hi - lo + 1)) 1%nat)
        ∈ screen w'
      ∧ (∀ y, y ∈ seqZ lo (hi - lo + 1) ↔ lo ≤ y ≤ hi)
      ∧ (∀ y, lo ≤ y ≤ hi →
              ∃ pick, st.choice (seqZ lo (hi - lo + 1)) pick = Some y)
      ∧ (∀ y geo gdf' var country model lead,
           lo ≤ y ≤ hi →
           y ∉ yrs sample.yield_fcst ["KE2001"; "KE2002"] (Some "long") →
           viz.df_filt (viz.mkArgs sample.yield_fcst geo gdf' var
                          ["KE2001"; "KE2002"] country (Some "long")
                          (Some y) model lead) = []).
Proof.
  split; [compute_done|].
  apply (year_options_contiguous sample.cape_eo sample.viewer_yield
           sample.yield_fcst sample.gdf sample.geojson
           (sample.kenya_long_2019 false) sample.fresh).
  - reflexivity.
  - discriminate.
Defined.

(** Triggering the render in two consecutive runs with the same
    selection: the second run stores the same artifact and leaves the
    cache as the first run left it, its [create_map] call being a hit. *)
Lemma retrigger_run_hits
    (cape_eo : list EOObs.row) (viewer_yield : list YieldObs.row)
    (yield_fcst : list Forecast.row) (gdf : list Region.row)
    (geojson : GeoJSON) (ui : interaction) (w : world) (lo hi : Z) :
  let selected_country := st.choice (countries yield_fcst) (pick_country ui) in
  let fnids := country_fnids yield_fcst selected_country in
  let selected_season := st.choice (seasons yield_fcst fnids) (pick_season ui) in
  let a := selected_args yield_fcst gdf geojson ui lo hi in
  on_forecast_page ui → update_clicked ui = true →
  Series_min (yrs yield_fcst fnids selected_season) = Some lo →
  Series_max (yrs yield_fcst fnids selected_season) = Some hi →
  ∃ w1 w2 fig,
    rerun cape_eo viewer_yield yield_fcst gdf geojson ui w = (inl (), w1)
    ∧ rerun cape_eo viewer_yield yield_fcst gdf geojson ui w1 = (inl (), w2)
    ∧ artifact w1 = Some fig ∧ artifact w2 = Some fig
    ∧ cache_create_map w2 = cache_create_map w1
    ∧ cached_create_map (cache_create_map w1) a
      = (Ok fig, cache_create_map w1, Hit).
Proof.
  intros selected_country fnids selected_season a Hpage Hupdate Hmin Hmax.
  destruct (forecast_page_run cape_eo viewer_yield yield_fcst gdf geojson
              ui w lo hi Hpage Hmin Hmax) as (w1 & Hrun1 & _ & Hfig1).
  destruct (forecast_page_run cape_eo viewer_yield yield_fcst gdf geojson
              ui w1 lo hi Hpage Hmin Hmax) as (w2 & Hrun2 & _ & Hfig2).
  rewrite Hupdate in Hfig1, Hfig2.
  destruct Hfig1 as (fig & s1 & Hcall1 & Hart1).
  destruct Hfig2 as (fig2 & s2 & Hcall2 & Hart2).
  pose proof (cache_resource_again cache_key viz.create_map _ _ _ _ _ Hcall1)
    as Hhit.
  fold (cached_create_map (cache_create_map w1)
          (selected_args yield_fcst gdf geojson ui lo hi)) in Hhit.
  rewrite Hhit in Hcall2. injection Hcall2 as <- Hcache _.
  exists w1, w2, fig. by repeat split.
Qed.

(** ** The choropleth trace *)

Lemma NoDup_fmap_coarser {A B C} (f : A → B) (g : A → C) (l : list A) :
  (∀ x y, x ∈ l → y ∈ l → g x = g y → f x = f y) →
  NoDup (f <$> l) → NoDup (g <$> l).
Proof.
  induction l as [|x l IH]; intros Hfg Hnd; [constructor|].
  rewrite fmap_cons in *. apply NoDup_cons in Hnd as [Hx Hnd].
  apply NoDup_cons. split.
  - intros (y & Hgy & Hy)%list_elem_of_fmap. apply Hx.
    apply list_elem_of_fmap. exists y. split; [|done].
    apply Hfg; [left|by right|done].
  - apply IH; [|done]. intros y1 y2 ? ?. apply Hfg; by right.
Qed.

(** X1: when the filter selects at least one record and the variable
    names a metric column, [create_map] returns a figure with exactly one
    choropleth trace; its locations, values and hover texts are the
    region ids, the metric values and the [admin1] names of the selected
    records, in table order, every location is one of the country's
    region ids, and the color bar is titled with the label of the
    variable. *)
Theorem create_map_one_trace
    (a : viz.args) (v : string) (col : Forecast.row → Q) :
  viz.df_filt a ≠ [] →
  viz.selected_variable a = Some v →
  Forecast.column v = Some col →
  ∃ fig t,
    viz.create_map a = Ok fig
    ∧ viz.data fig = [t]
    ∧ viz.trace_geojson t = viz.geojson a
    ∧ viz.featureidkey t = "properties.fnid"
    ∧ viz.locations t = Forecast.fnid <$> viz.df_filt a
    ∧ viz.z t = col <$> viz.df_filt a
    ∧ viz.text t = Forecast.admin1 <$> viz.df_filt a
    ∧ (∀ f, f ∈ viz.locations t → f ∈ viz.country_fnids a)
    ∧ viz.colorbar_title t = (default (v, "") (viz.label_map !! v)).1.
Proof.
  intros Hne Hvar Hcol. unfold viz.create_map. rewrite Hvar.
  destruct (default (v, "") (viz.label_map !! v)) as [var_label var_unit].
  assert (∀ f, f ∈ Forecast.fnid <$> viz.df_filt a → f ∈ viz.country_fnids a)
    as Hloc.
  { intros f (r & -> & [Hsel _]%list_elem_of_filter)%list_elem_of_fmap.
    by destruct Hsel. }
  destruct (viz.df_filt a) as [|r rows]; [done|].
  unfold viz.getitem. simpl. rewrite Hcol. simpl.
  eexists _, _. split; [reflexivity|]. simpl.
  split; [reflexivity|]. by repeat split.
Qed.

Lemma create_map_one_trace_witness :
  ∃ fig t,
    viz.create_map (sample.kenya_long 2018) = Ok fig
    ∧ viz.data fig = [t]
    ∧ viz.trace_geojson t = viz.geojson (sample.kenya_long 2018)
    ∧ viz.featureidkey t = "properties.fnid"
    ∧ viz.locations t = Forecast.fnid <$> viz.df_filt (sample.kenya_long 2018)
    ∧ viz.z t = Forecast.yield_fcst <$> viz.df_filt (sample.kenya_long 2018)
    ∧ viz.text t = Forecast.admin1 <$> viz.df_filt (sample.kenya_long 2018)
    ∧ (∀ f, f ∈ viz.locations t →
            f ∈ viz.country_fnids (sample.kenya_long 2018))
    ∧ viz.colorbar_title t
      = (default ("yield_fcst", "") (viz.label_map !! "yield_fcst")).1.
Proof.
  apply (create_map_one_trace (sample.kenya_long 2018) "yield_fcst"
           Forecast.yield_fcst).
  - discriminate.
  - reflexivity.
  - reflexivity.
Defined.

(** X2: when the forecast table holds at most one record per cell
    (region, season, year, model, lead), the filter of [create_map]
    selects at most one record per region: no region id occurs twice
    among the locations to color. *)
Theorem create_map_one_value_per_region (a : viz.args) :
  one_record_per_cell (viz.yield_fcst a) →
  NoDup (Forecast.fnid <$> viz.df_filt a).
Proof.
  intros Hcells. apply (NoDup_fmap_coarser cell).
  - intros r1 r2 [Hsel1 _]%list_elem_of_filter [Hsel2 _]%list_elem_of_filter Hf.
    destruct Hsel1 as (_ & Hs1 & [_ Hy1] & Hm1 & Hl1).
    destruct Hsel2 as (_ & Hs2 & [_ Hy2] & Hm2 & Hl2).
    unfold cell. congruence.
  - eapply sublist_NoDup; [exact Hcells|].
    apply fmap_sublist. unfold viz.df_filt. apply sublist_filter.
Qed.

Lemma sample_one_record_per_cell : one_record_per_cell sample.yield_fcst.
Proof. unfold one_record_per_cell. compute_done. Defined.

Lemma create_map_one_value_per_region_witness :
  NoDup (Forecast.fnid <$> viz.df_filt (sample.kenya_long 2018)).
Proof.
  apply (create_map_one_value_per_region (sample.kenya_long 2018)).
  exact sample_one_record_per_cell.
Defined.

(** ** What the render cache keeps and what it overlooks *)

Lemma with_gdf_same_key (a a' : viz.args) (gdf : list Region.row) :
  cache_key a = cache_key a' → with_gdf a gdf = with_gdf a' gdf.
Proof.
  destruct a, a'. unfold cache_key, with_gdf. simpl.
  intros Hkey. by injection Hkey as -> -> -> -> -> -> -> -> ->.
Qed.

Lemma with_gdf_own (a : viz.args) : with_gdf a (viz._gdf a) = a.
Proof. by destruct a. Qed.

Lemma cache_key_with_gdf (a : viz.args) (gdf : list Region.row) :
  cache_key (with_gdf a gdf) = cache_key a.
Proof. reflexivity. Qed.

Lemma cache_resource_keeps {X K V} `{EqDecision K}
    (key : X → K) (body : X → result V) (c c1 : list (K * V)) (x : X)
    (r : result V) (s : served) (k : K) (v : V) :
  cache_resource key body c x = (r, c1, s) →
  assoc c k = Some v → assoc c1 k = Some v.
Proof.
  unfold cache_resource. destruct (assoc c (key x)) as [v0|] eqn:Hc.
  - by intros Heq; injection Heq as _ <- _.
  - destruct (body x) as [v0|e]; intros Heq; injection Heq as _ <- _;
      [|done].
    intros Hk. simpl. rewrite decide_False; [done|]. congruence.
Qed.

(** X3: a call of the cached [create_map] never evicts and never
    overwrites: every figure the cache held before the call it still
    holds, under the same key, after it, whether the call hit, missed or
    raised. *)
Theorem create_map_cache_keeps_entries
    (c c1 : list (create_map_key * viz.Figure)) (a : viz.args)
    (r : result viz.Figure) (s : served)
    (k : create_map_key) (fig : viz.Figure) :
  cached_create_map c a = (r, c1, s) →
  assoc c k = Some fig → assoc c1 k = Some fig.
Proof. apply cache_resource_keeps. Qed.

Lemma create_map_cache_keeps_entries_witness :
  let first := cached_create_map [] (sample.kenya_long 2018) in
  let second := cached_create_map first.1.2 (sample.kenya_long 2019) in
  assoc second.1.2 (cache_key (sample.kenya_long 2018))
  = Some sample.kenya_2018_fig.
Proof.
  intros first second.
  apply (create_map_cache_keeps_entries first.1.2 second.1.2
           (sample.kenya_long 2019) second.1.1 second.2); reflexivity.
Defined.

(** X4: the region table is no part of the cache key ([_gdf] starts with
    an underscore): once a call returned a figure, a call with another
    region table and otherwise the same arguments is a cache hit and
    returns that same figure, its center computed from the first table. *)
Theorem create_map_cache_ignores_gdf
    (c c1 : list (create_map_key * viz.Figure)) (a : viz.args)
    (fig : viz.Figure) (s : served) (gdf' : list Region.row) :
  cached_create_map c a = (Ok fig, c1, s) →
  cached_create_map c1 (with_gdf a gdf') = (Ok fig, c1, Hit).
Proof.
  intros Hfirst.
  pose proof (cache_resource_again cache_key viz.create_map c c1 a fig s Hfirst)
    as Hhit.
  unfold cached_create_map, cache_resource in *.
  rewrite cache_key_with_gdf.
  destruct (assoc c1 (cache_key a)) as [v|]; [done|].
  by destruct (viz.create_map a).
Qed.

Lemma create_map_cache_ignores_gdf_witness :
  let a := sample.kenya_long 2018 in
  ∃ fig c1,
    cached_create_map [] a = (Ok fig, c1, Miss)
    ∧ cached_create_map c1 (with_gdf a sample.gdf_moved) = (Ok fig, c1, Hit)
    ∧ viz.create_map (with_gdf a sample.gdf_moved) ≠ Ok fig.
Proof.
  intros a. eexists _, _. split; [reflexivity|]. split.
  - apply (create_map_cache_ignores_gdf [] _ a _ Miss sample.gdf_moved).
    reflexivity.
  - vm_compute. discriminate.
Defined.

Lemma cached_call_result
    (gdf : list Region.row) (c c1 : list (create_map_key * viz.Figure))
    (a : viz.args) (r : result viz.Figure) (s : served) :
  create_map_cache_sound gdf c →
  viz._gdf a = gdf →
  cached_create_map c a = (r, c1, s) →
  r = viz.create_map a.
Proof.
  intros Hsound Hgdf. unfold cached_create_map, cache_resource.
  destruct (assoc c (cache_key a)) as [v|] eqn:Hc.
  - intros Heq; injection Heq as <- _ _.
    apply Hsound in Hc. by rewrite <- Hgdf, with_gdf_own in Hc.
  - by destruct (viz.create_map a); intros Heq; injection Heq as <- _ _.
Qed.

Lemma cached_call_keeps_sound
    (gdf : list Region.row) (c c1 : list (create_map_key * viz.Figure))
    (a : viz.args) (r : result viz.Figure) (s : served) :
  create_map_cache_sound gdf c →
  viz._gdf a = gdf →
  cached_create_map c a = (r, c1, s) →
  create_map_cache_sound gdf c1.
Proof.
  intros Hsound Hgdf. unfold cached_create_map, cache_resource.
  destruct (assoc c (cache_key a)) as [v|] eqn:Hc.
  - by intros Heq; injection Heq as _ <- _.
  - destruct (viz.create_map a) as [v|e] eqn:Hbody;
      intros Heq; injection Heq as _ <- _; [|done].
    intros a' fig. simpl. case_decide as Hkey; [|by apply Hsound].
    intros Hfig; injection Hfig as <-.
    by rewrite <- (with_gdf_same_key a a' gdf Hkey), <- Hgdf, with_gdf_own.
Qed.

(** X5: as long as the forecast table and the region table stay the
    same, as in the application, which loads each once, the cache is
    transparent: if every figure cached under a key of that forecast
    table is what [create_map] returns for the key and the region table,
    then a cached call on these tables, hit or miss, returns exactly what
    [create_map] returns for its arguments, and the cache it leaves has
    the same property. *)
Theorem cached_create_map_transparent
    (t : list Forecast.row) (gdf : list Region.row)
    (c c1 : list (create_map_key * viz.Figure))
    (a : viz.args) (r : result viz.Figure) (s : served) :
  create_map_cache_sound_for t gdf c →
  viz.yield_fcst a = t →
  viz._gdf a = gdf →
  cached_create_map c a = (r, c1, s) →
  r = viz.create_map a ∧ create_map_cache_sound_for t gdf c1.
Proof.
  intros Hsound Ht Hgdf. unfold cached_create_map, cache_resource.
  destruct (assoc c (cache_key a)) as [v|] eqn:Hc.
  - intros Heq; injection Heq as <- <- _. split; [|done].
    apply (Hsound a v Ht) in Hc. by rewrite <- Hgdf, with_gdf_own in Hc.
  - destruct (viz.create_map a) as [v|e] eqn:Hbody;
      intros Heq; injection Heq as <- <- _; (split; [done|]); [|done].
    intros a' fig Ht'. simpl. case_decide as Hkey; [|by apply Hsound].
    intros Hfig; injection Hfig as <-.
    by rewrite <- (with_gdf_same_key a a' gdf Hkey), <- Hgdf, with_gdf_own.
Qed.

Lemma cached_create_map_transparent_witness :
  let a := sample.kenya_long 2018 in
  let first := cached_create_map [] a in
  let second := cached_create_map first.1.2 a in
  first.2 = Miss ∧ second.2 = Hit
  ∧ second.1.1 = viz.create_map a
  ∧ create_map_cache_sound_for sample.yield_fcst sample.gdf second.1.2.
Proof.
  intros a first second.
  assert (create_map_cache_sound_for sample.yield_fcst sample.gdf first.1.2)
    as Hfirst.
  { apply (cached_create_map_transparent sample.yield_fcst sample.gdf []
             first.1.2 a first.1.1 first.2); try reflexivity.
    intros a' fig _ Hfig. discriminate Hfig. }
  split; [reflexivity|]. split; [reflexivity|].
  apply (cached_create_map_transparent sample.yield_fcst sample.gdf first.1.2
           second.1.2 a second.1.1 second.2 Hfirst); reflexivity.
Defined.

(** ** The selectors of the forecast page *)

Lemma str_le_total : Total str_le.
Proof. intros a b. apply String.leb_total. Qed.

Lemma choice_nonempty {A} (options : list A) (pick : nat) :
  options ≠ [] → ∃ x, st.choice options pick = Some x ∧ x ∈ options.
Proof.
  intros Hne. unfold st.choice.
  destruct (options !! pick) as [x|] eqn:Hx.
  - exists x. split; [done|]. by apply list_elem_of_lookup_2 in Hx.
  - destruct options as [|x options]; [done|]. exists x. split; [done|left].
Qed.

Lemma elem_of_seasons
    (yield_fcst : list Forecast.row) (fnids : list string) (s : string) :
  s ∈ seasons yield_fcst fnids ↔
  ∃ r, r ∈ yield_fcst ∧ Forecast.fnid r ∈ fnids ∧ Forecast.season r = s.
Proof.
  unfold seasons. rewrite elem_of_unique, list_elem_of_fmap. split.
  - intros (r & -> & [Hf Hin]%list_elem_of_filter). by exists r.
  - intros (r & Hin & Hf & <-). exists r. split; [done|].
    by apply list_elem_of_filter.
Qed.

Lemma elem_of_sorted_unique {A B} `{EqDecision B}
    (R : relation B) `{∀ x y, Decision (R x y)}
    (f : A → B) (t : list A) (x : B) :
  x ∈ merge_sort R (unique (f <$> t)) ↔ ∃ r, r ∈ t ∧ f r = x.
Proof.
  rewrite merge_sort_Permutation, elem_of_unique, list_elem_of_fmap.
  split; intros (r & ? & ?); by exists r.
Qed.

Lemma NoDup_sorted_unique {B} `{EqDecision B}
    (R : relation B) `{∀ x y, Decision (R x y)} (l : list B) :
  NoDup (merge_sort R (unique l)).
Proof. rewrite merge_sort_Permutation. apply NoDup_unique. Qed.

(** X6: the options of the country, model and lead selectors are the
    values of the column that occur in the forecast table, each one once,
    in ascending order. *)
Theorem selector_options_sorted_distinct (yield_fcst : list Forecast.row) :
  ((∀ c, c ∈ countries yield_fcst ↔
         ∃ r, r ∈ yield_fcst ∧ Forecast.country r = c)
   ∧ NoDup (countries yield_fcst) ∧ Sorted str_le (countries yield_fcst))
  ∧ ((∀ m, m ∈ models yield_fcst ↔
           ∃ r, r ∈ yield_fcst ∧ Forecast.model r = m)
     ∧ NoDup (models yield_fcst) ∧ Sorted str_le (models yield_fcst))
  ∧ ((∀ l, l ∈ leads yield_fcst ↔
           ∃ r, r ∈ yield_fcst ∧ Forecast.lead r = l)
     ∧ NoDup (leads yield_fcst) ∧ Sorted Z.le (leads yield_fcst)).
Proof.
  unfold countries, models, leads, sorted_str, sorted_int.
  split; [|split]; (split; [|split]).
  - intros c. apply elem_of_sorted_unique.
  - apply NoDup_sorted_unique.
  - apply (@Sorted_merge_sort _ str_le _ str_le_total).
  - intros m. apply elem_of_sorted_unique.
  - apply NoDup_sorted_unique.
  - apply (@Sorted_merge_sort _ str_le _ str_le_total).
  - intros l. apply elem_of_sorted_unique.
  - apply NoDup_sorted_unique.
  - apply Sorted_merge_sort. apply _.
Qed.

(** X7: on a forecast table with at least one row the cascade of
    selectors has no dead end: whatever the user picks, a country of the
    table is selected, its region-id list is not empty, a season is
    selected, and some row of those regions has that season. *)
Theorem selector_cascade_no_dead_end
    (yield_fcst : list Forecast.row) (pick_c pick_s : nat) :
  yield_fcst ≠ [] →
  ∃ c s,
    st.choice (countries yield_fcst) pick_c = Some c
    ∧ (∃ r, r ∈ yield_fcst ∧ Forecast.country r = c)
    ∧ country_fnids yield_fcst (Some c) ≠ []
    ∧ st.choice (seasons yield_fcst (country_fnids yield_fcst (Some c))) pick_s
      = Some s
    ∧ ∃ r, r ∈ yield_fcst
           ∧ Forecast.fnid r ∈ country_fnids yield_fcst (Some c)
           ∧ Forecast.season r = s.
Proof.
  intros Hne.
  assert (countries yield_fcst ≠ []) as Hcountries.
  { destruct yield_fcst as [|r0 t]; [done|]. intros Hnil.
    assert (Forecast.country r0 ∈ countries (r0 :: t)) as Hin.
    { apply elem_of_sorted_unique. exists r0. split; [left|done]. }
    rewrite Hnil in Hin. by apply elem_of_nil in Hin. }
  destruct (choice_nonempty _ pick_c Hcountries) as (c & Hc & Hcin).
  apply elem_of_sorted_unique in Hcin as (r & Hr & Hrc).
  assert (Forecast.fnid r ∈ country_fnids yield_fcst (Some c)) as Hfnid.
  { apply elem_of_country_fnids. exists r. by rewrite Hrc. }
  assert (seasons yield_fcst (country_fnids yield_fcst (Some c)) ≠ [])
    as Hseasons.
  { intros Hnil.
    assert (Forecast.season r
            ∈ seasons yield_fcst (country_fnids yield_fcst (Some c))) as Hin.
    { apply elem_of_seasons. by exists r. }
    rewrite Hnil in Hin. by apply elem_of_nil in Hin. }
  destruct (choice_nonempty _ pick_s Hseasons) as (s & Hs & Hsin).
  exists c, s. split; [done|]. split; [by exists r|]. split.
  - intros Hnil. rewrite Hnil in Hfnid. by apply elem_of_nil in Hfnid.
  - split; [done|]. by apply elem_of_seasons.
Qed.

Lemma selector_cascade_no_dead_end_witness :
  ∃ c s,
    st.choice (countries sample.yield_fcst) 1 = Some c
    ∧ (∃ r, r ∈ sample.yield_fcst ∧ Forecast.country r = c)
    ∧ country_fnids sample.yield_fcst (Some c) ≠ []
    ∧ st.choice (seasons sample.yield_fcst
                   (country_fnids sample.yield_fcst (Some c))) 0
      = Some s
    ∧ ∃ r, r ∈ sample.yield_fcst
           ∧ Forecast.fnid r ∈ country_fnids sample.yield_fcst (Some c)
           ∧ Forecast.season r = s.
Proof.
  apply (selector_cascade_no_dead_end sample.yield_fcst 1 0). discriminate.
Defined.

(** X8: with a region id always under the same country, the season
    options of a country are exactly the seasons of the rows of that
    country. *)
Theorem seasons_of_country_rows
    (yield_fcst : list Forecast.row) (c s : string) :
  one_country_per_region yield_fcst →
  s ∈ seasons yield_fcst (country_fnids yield_fcst (Some c)) ↔
  ∃ r, r ∈ yield_fcst ∧ Forecast.country r = c ∧ Forecast.season r = s.
Proof.
  intros Hone. rewrite elem_of_seasons. split.
  - intros (r & Hr & (r' & Hr' & Hc & Hf)%elem_of_country_fnids & Hs).
    exists r. split; [done|]. split; [|done].
    rewrite (Hone r r' Hr Hr'); [congruence|done].
  - intros (r & Hr & Hc & Hs). exists r. split; [done|]. split; [|done].
    apply elem_of_country_fnids. exists r. by rewrite Hc.
Qed.

Lemma sample_one_country_per_region :
  one_country_per_region sample.yield_fcst.
Proof.
  intros r1 r2 H1 H2 Hf.
  repeat (apply elem_of_cons in H1 as [->|H1]);
    try (by apply elem_of_nil in H1);
    repeat (apply elem_of_cons in H2 as [->|H2]);
    try (by apply elem_of_nil in H2);
    try reflexivity; discriminate Hf.
Defined.

Lemma seasons_of_country_rows_witness :
  "short" ∈ seasons sample.yield_fcst
              (country_fnids sample.yield_fcst (Some "Kenya")) ↔
  ∃ r, r ∈ sample.yield_fcst ∧ Forecast.country r = "Kenya"
       ∧ Forecast.season r = "short".
Proof.
  apply (seasons_of_country_rows sample.yield_fcst "Kenya" "short").
  exact sample_one_country_per_region.
Defined.

(** X9: for a selection with available years between [lo] and [hi], the
    year selector always returns a year, it lies between [lo] and [hi],
    and it is [lo], the earliest year, as long as the user picked
    nothing. *)
Theorem selected_year_in_bounds
    (yield_fcst : list Forecast.row) (fnids : list string)
    (season : option string) (lo hi : Z) (pick : nat) :
  Series_min (yrs yield_fcst fnids season) = Some lo →
  Series_max (yrs yield_fcst fnids season) = Some hi →
  (∃ y, st.choice (year_range lo hi) pick = Some y ∧ lo ≤ y ≤ hi)
  ∧ st.choice (year_range lo hi) 0 = Some lo.
Proof.
  intros [Hlo_in Hlo]%Series_min_spec [Hhi_in Hhi]%Series_max_spec.
  assert (lo ≤ hi) as Hle by (by apply Hlo).
  assert (year_range lo hi = lo :: seqZ (Z.succ lo) (Z.pred (hi + 1 - lo)))
    as Hrange.
  { unfold year_range, range. apply seqZ_cons. lia. }
  split.
  - destruct (choice_nonempty (year_range lo hi) pick) as (y & Hy & Hin).
    { by rewrite Hrange. }
    exists y. split; [done|].
    unfold year_range in Hin. apply elem_of_range in Hin. lia.
  - by rewrite Hrange.
Qed.

Lemma selected_year_in_bounds_witness :
  (∃ y, st.choice (year_range 2018 2020) 7 = Some y ∧ 2018 ≤ y ≤ 2020)
  ∧ st.choice (year_range 2018 2020) 0 = Some 2018.
Proof.
  apply (selected_year_in_bounds sample.yield_fcst ["KE2001"; "KE2002"]
           (Some "long") 2018 2020 7); reflexivity.
Defined.

(** ** How a run of the forecast page ends *)

Lemma Series_min_max_nonempty (s : list Z) :
  s ≠ [] → ∃ lo hi, Series_min s = Some lo ∧ Series_max s = Some hi.
Proof. destruct s; [done|]. intros _. by eexists _, _. Qed.

(** X10: on a forecast table whose only null cells are years (the table
    as modelled: every other column always holds a value), a run of the
    forecast page never ends on an exception: it stops at the year check
    when the selected country and season have no year, and otherwise runs
    to its end, whatever the rows are and whatever the user picked or
    clicked. *)
Theorem forecast_page_never_crashes
    (cape_eo : list EOObs.row) (viewer_yield : list YieldObs.row)
    (yield_fcst : list Forecast.row) (gdf : list Region.row)
    (geojson : GeoJSON) (ui : interaction) (w : world) :
  let selected_country := st.choice (countries yield_fcst) (pick_country ui) in
  let fnids := country_fnids yield_fcst selected_country in
  let selected_season := st.choice (seasons yield_fcst fnids) (pick_season ui) in
  on_forecast_page ui →
  (rerun cape_eo viewer_yield yield_fcst gdf geojson ui w).1
  = if decide (yrs yield_fcst fnids selected_season = [])
    then inr Stop else inl ().
Proof.
  intros selected_country fnids selected_season Hpage.
  case_decide as Hyrs.
  - destruct (forecast_page_halted_run cape_eo viewer_yield yield_fcst gdf
                geojson ui w Hpage Hyrs) as (w' & -> & _).
    done.
  - destruct (Series_min_max_nonempty _ Hyrs) as (lo & hi & Hmin & Hmax).
    destruct (forecast_page_run cape_eo viewer_yield yield_fcst gdf geojson
                ui w lo hi Hpage Hmin Hmax) as (w' & -> & _).
    done.
Qed.

Lemma forecast_page_never_crashes_witness :
  (sample.rerun (sample.kenya_long_2019 true) sample.fresh).1 = inl ()
  ∧ (sample.rerun (sample.somalia_gu true) sample.fresh).1 = inr Stop.
Proof.
  split.
  - exact (forecast_page_never_crashes sample.cape_eo sample.viewer_yield
             sample.yield_fcst sample.gdf sample.geojson
             (sample.kenya_long_2019 true) sample.fresh eq_refl).
  - exact (forecast_page_never_crashes sample.cape_eo sample.viewer_yield
             sample.yield_fcst sample.gdf sample.geojson
             (sample.somalia_gu true) sample.fresh eq_refl).
Defined.

(** X11: on an empty forecast table the forecast page offers the three
    variables, draws the country and season selectors without any option
    and without a value, warns that no forecast years are available and
    stops. *)
Theorem empty_forecast_table_stops
    (cape_eo : list EOObs.row) (viewer_yield : list YieldObs.row)
    (gdf : list Region.row) (geojson : GeoJSON)
    (ui : interaction) (w : world) :
  on_forecast_page ui →
  ∃ w',
    rerun cape_eo viewer_yield [] gdf geojson ui w = (inr Stop, w')
    ∧ screen w' =
        [ Title "Sub-Saharan Africa Crop Forecast Viewer";
          Radio "Page" pages (Some "Historical Forecasts");
          Markdown "### View Historical Forecast and Error";
          Selectbox "Variable"
            [Str "yield_fcst"; Str "yield_fcst_error"; Str "yield_fcst_perror"]
            (Str <$> st.choice variables (pick_variable ui));
          Selectbox "Country" [] None;
          Selectbox "Season" [] None;
          Warning "No forecast years available for the selected conditions." ].
Proof.
  intros Hpage.
  destruct (forecast_page_halted_run cape_eo viewer_yield [] gdf geojson
              ui w Hpage eq_refl) as (w' & Hrun & Hscreen).
  exists w'. split; [done|]. rewrite Hscreen.
  by destruct (pick_country ui), (pick_season ui).
Qed.

Lemma empty_forecast_table_stops_witness :
  ∃ w',
    rerun sample.cape_eo sample.viewer_yield [] sample.gdf sample.geojson
      (sample.kenya_long_2019 true) sample.fresh = (inr Stop, w')
    ∧ screen w' =
        [ Title "Sub-Saharan Africa Crop Forecast Viewer";
          Radio "Page" pages (Some "Historical Forecasts");
          Markdown "### View Historical Forecast and Error";
          Selectbox "Variable"
            [Str "yield_fcst"; Str "yield_fcst_error"; Str "yield_fcst_perror"]
            (Some (Str "yield_fcst"));
          Selectbox "Country" [] None;
          Selectbox "Season" [] None;
          Warning "No forecast years available for the selected conditions." ].
Proof.
  apply (empty_forecast_table_stops sample.cape_eo sample.viewer_yield
           sample.gdf sample.geojson (sample.kenya_long_2019 true)
           sample.fresh).
  reflexivity.
Defined.

(** X12: a run of the forecast page with the button clicked, for a
    selection with available years and a cache that holds only figures
    of the current region table, reaches its end, stores and draws
    exactly the figure [create_map] returns for the current selection,
    and leaves the cache with only figures of that table. *)
Theorem triggered_run_shows_selection
    (cape_eo : list EOObs.row) (viewer_yield : list YieldObs.row)
    (yield_fcst : list Forecast.row) (gdf : list Region.row)
    (geojson : GeoJSON) (ui : interaction) (w : world) (lo hi : Z) :
  let selected_country := st.choice (countries yield_fcst) (pick_country ui) in
  let fnids := country_fnids yield_fcst selected_country in
  let selected_season := st.choice (seasons yield_fcst fnids) (pick_season ui) in
  on_forecast_page ui →
  update_clicked ui = true →
  Series_min (yrs yield_fcst fnids selected_season) = Some lo →
  Series_max (yrs yield_fcst fnids selected_season) = Some hi →
  create_map_cache_sound gdf (cache_create_map w) →
  ∃ w' fig,
    rerun cape_eo viewer_yield yield_fcst gdf geojson ui w = (inl (), w')
    ∧ viz.create_map (selected_args yield_fcst gdf geojson ui lo hi) = Ok fig
    ∧ artifact w' = Some fig
    ∧ PlotlyChart fig ∈ screen w'
    ∧ create_map_cache_sound gdf (cache_create_map w').
Proof.
  intros selected_country fnids selected_season Hpage Hupdate Hmin Hmax Hsound.
  destruct (forecast_page_run cape_eo viewer_yield yield_fcst gdf geojson
              ui w lo hi Hpage Hmin Hmax) as (w' & Hrun & Hscreen & Hfig).
  rewrite Hupdate in Hfig. destruct Hfig as (fig & s & Hcall & Hart).
  pose proof (cached_call_result gdf _ _
                (selected_args yield_fcst gdf geojson ui lo hi) _ _
                Hsound eq_refl Hcall) as Hbody.
  pose proof (cached_call_keeps_sound gdf _ _
                (selected_args yield_fcst gdf geojson ui lo hi) _ _
                Hsound eq_refl Hcall) as Hsound'.
  exists w', fig. split; [done|]. split; [done|]. split; [done|].
  split; [|done].
  rewrite Hscreen, Hart. apply elem_of_app. right. left.
Qed.

Lemma triggered_run_shows_selection_witness :
  ∃ w' fig,
    sample.rerun (sample.kenya_long_2018 true) sample.fresh = (inl (), w')
    ∧ viz.create_map
        (selected_args sample.yield_fcst sample.gdf sample.geojson
           (sample.kenya_long_2018 true) 2018 2020) = Ok fig
    ∧ artifact w' = Some fig
    ∧ PlotlyChart fig ∈ screen w'
    ∧ create_map_cache_sound sample.gdf (cache_create_map w').
Proof.
  apply (triggered_run_shows_selection sample.cape_eo sample.viewer_yield
           sample.yield_fcst sample.gdf sample.geojson
           (sample.kenya_long_2018 true) sample.fresh 2018 2020);
    try reflexivity.
  intros a fig Hfig. discriminate Hfig.
Defined.

(** ** Runs of the Yield & Climate page *)

Ltac run_plots w :=
  cbn [screen choropleth_fig cache_plot_yield_obs cache_plot_eo_var
       cache_create_map fst snd id];
  try (destruct (assoc (cache_plot_yield_obs w) _) as [?fig_y|] eqn:?Hcy;
       cbn [screen choropleth_fig cache_plot_yield_obs cache_plot_eo_var
            cache_create_map fst snd id]);
  try (destruct (assoc (cache_plot_eo_var w) _) as [?fig_e|] eqn:?Hce;
       cbn [screen choropleth_fig cache_plot_yield_obs cache_plot_eo_var
            cache_create_map fst snd id]).

Lemma display_region_returns
    (cape_eo : list EOObs.row) (viewer_yield : list YieldObs.row)
    (ui : interaction) (fnid : string) (w : world) :
  ∃ w', display_region cape_eo viewer_yield ui fnid w = (inl (), w').
Proof.
  unfold display_region, plot_yield_obs, plot_eo_var, cache_resource.
  run_script.
  destruct (eo_df cape_eo fnid) as [|e es];
    destruct (crop_yield viewer_yield fnid) as [|y ys];
    run_plots w; eexists; reflexivity.
Qed.

Lemma region_row_found (gdf : list Region.row) (fnid : string) (row : Region.row) :
  region_row gdf fnid = Ok row → row ∈ gdf ∧ Region.fnid row = fnid.
Proof.
  unfold region_row.
  destruct (filter _ gdf) as [|r rs] eqn:Hfilter; [done|].
  intros Heq; injection Heq as <-.
  assert (r ∈ filter (λ r, Region.fnid r = fnid) gdf) as Hin
    by (rewrite Hfilter; left).
  apply list_elem_of_filter in Hin. tauto.
Qed.

Lemma region_row_absent (gdf : list Region.row) (fnid : string) (e : exn) :
  region_row gdf fnid = Raised e →
  e = IndexError "single positional indexer is out-of-bounds"
  ∧ ∀ r, r ∈ gdf → Region.fnid r ≠ fnid.
Proof.
  unfold region_row.
  destruct (filter _ gdf) as [|r rs] eqn:Hfilter; [|done].
  intros Heq; injection Heq as <-. split; [done|].
  intros r Hin Hr.
  by apply (filter_nil_not_elem_of (λ r, Region.fnid r = fnid) gdf r).
Qed.

(** X13: a run of the Yield & Climate page without a click on the map
    draws the map and the prompt to click a region, nothing else; it
    looks nothing up, plots nothing, and leaves the session state and the
    three caches as they were. *)
Theorem no_click_prompt
    (cape_eo : list EOObs.row) (viewer_yield : list YieldObs.row)
    (yield_fcst : list Forecast.row) (gdf : list Region.row)
    (geojson : GeoJSON) (ui : interaction) (w : world) :
  on_region_page ui →
  last_active_drawing ui = None →
  rerun cape_eo viewer_yield yield_fcst gdf geojson ui w
  = (inl (),
     mkWorld (choropleth_fig w) (cache_plot_yield_obs w)
       (cache_plot_eo_var w) (cache_create_map w)
       [ Title "Sub-Saharan Africa Crop Forecast Viewer";
         Radio "Page" pages (Some "Yield & Climate");
         Markdown "### Click a region to view EO and crop data";
         Folium (viz.build_base_map geojson);
         Info "Click a region on the map to begin." ]).
Proof.
  intros Hpage Hclick. unfold on_region_page in Hpage.
  unfold rerun, main. run_script. rewrite Hpage.
  rewrite decide_True by done.
  unfold yield_climate. run_script. rewrite Hclick.
  cbn [screen choropleth_fig cache_plot_yield_obs cache_plot_eo_var
       cache_create_map].
  by rewrite (decide_False (P := Some "Yield & Climate"
                                 = Some "Historical Forecasts")).
Qed.

Lemma no_click_prompt_witness :
  sample.rerun (mkInteraction 0 None 0 0 0 0 0 0 0 true) sample.rendered
  = (inl (),
     mkWorld (choropleth_fig sample.rendered) [] [] []
       [ Title "Sub-Saharan Africa Crop Forecast Viewer";
         Radio "Page" pages (Some "Yield & Climate");
         Markdown "### Click a region to view EO and crop data";
         Folium (viz.build_base_map sample.geojson);
         Info "Click a region on the map to begin." ]).
Proof.
  apply (no_click_prompt sample.cape_eo sample.viewer_yield sample.yield_fcst
           sample.gdf sample.geojson (mkInteraction 0 None 0 0 0 0 0 0 0 true)
           sample.rendered); reflexivity.
Defined.

(** X14: a click on a region with a non-empty id that the region table
    knows, with plot caches that hold only what the plot functions
    return: the run reaches its end and draws, after the map, the names
    of the first row of that id, the EO variable selector only when the
    region has EO rows, then the yield chart of exactly the region's
    yield rows or the no-yield warning, then the EO chart of exactly the
    region's EO rows for the selected variable or the no-EO warning.  The
    plot caches keep their property; the stored choropleth and its cache
    are untouched. *)
Theorem region_click_screen
    (cape_eo : list EOObs.row) (viewer_yield : list YieldObs.row)
    (yield_fcst : list Forecast.row) (gdf : list Region.row)
    (geojson : GeoJSON) (ui : interaction) (w : world)
    (drawing : Feature.properties) (row : Region.row) :
  on_region_page ui →
  last_active_drawing ui = Some drawing →
  Feature.fnid drawing ≠ "" →
  region_row gdf (Feature.fnid drawing) = Ok row →
  plot_caches_sound w →
  let crop_yield := crop_yield viewer_yield (Feature.fnid drawing) in
  let eo_df := eo_df cape_eo (Feature.fnid drawing) in
  let selected_eo_var := default "None" (st.choice eo_vars (pick_eo_var ui)) in
  ∃ w',
    rerun cape_eo viewer_yield yield_fcst gdf geojson ui w = (inl (), w')
    ∧ screen w' =
        [ Title "Sub-Saharan Africa Crop Forecast Viewer";
          Radio "Page" pages (Some "Yield & Climate");
          Markdown "### Click a region to view EO and crop data";
          Folium (viz.build_base_map geojson);
          Success ("Selected Region: " ++ Region.admin0 row ++ " - "
                   ++ Region.admin1 row) ]
        ++ match eo_df with
           | [] => []
           | _ :: _ =>
             [ Selectbox "Select EO variables to plot" (Str <$> eo_vars)
                 (Str <$> st.choice eo_vars (pick_eo_var ui)) ]
           end
        ++ [ match crop_yield with
             | [] => Warning "No yield data available for this region."
             | _ :: _ => Pyplot (viz.plot_yield_obs crop_yield)
             end;
             match eo_df with
             | [] => Warning "No EO data available for this region."
             | _ :: _ => Pyplot (viz.plot_eo_var eo_df selected_eo_var)
             end ]
    ∧ plot_caches_sound w'
    ∧ choropleth_fig w' = choropleth_fig w
    ∧ cache_create_map w' = cache_create_map w.
Proof.
  intros Hpage Hclick Hfnid Hrow [Hy He] crop eo var. subst crop eo var.
  unfold on_region_page in Hpage.
  unfold rerun, main. run_script. rewrite Hpage.
  rewrite decide_True by done.
  unfold yield_climate. run_script. rewrite Hclick, Hrow.
  cbn [screen choropleth_fig cache_plot_yield_obs cache_plot_eo_var
       cache_create_map].
  rewrite (decide_False (P := Feature.fnid drawing = "")) by done.
  rewrite (decide_False (P := Some "Yield & Climate"
                              = Some "Historical Forecasts")) by discriminate.
  unfold display_region, plot_yield_obs, plot_eo_var, cache_resource.
  run_script.
  destruct (eo_df cape_eo _) as [|e es] eqn:Heo;
    destruct (crop_yield viewer_yield _) as [|y ys] eqn:Hcrop;
    run_plots w;
    try (apply Hy in Hcy as ->); try (apply He in Hce as ->);
    eexists; (split; [reflexivity|]);
    cbn [screen choropleth_fig cache_plot_yield_obs cache_plot_eo_var
         cache_create_map];
    (split; [reflexivity|]); (split; [|done]);
    (split;
     cbn [screen choropleth_fig cache_plot_yield_obs cache_plot_eo_var
          cache_create_map]; simpl assoc;
     [intros df fig|intros df v fig]; try case_decide; simplify_eq;
     try (intros Hfig; injection Hfig as <-); auto).
Qed.

Lemma region_click_screen_witness :
  ∃ w',
    sample.rerun (sample.click (Feature.mk "KE2001" "Kenya" "Rift Valley"
                                  "Nakuru")) sample.fresh = (inl (), w')
    ∧ screen w' =
        [ Title "Sub-Saharan Africa Crop Forecast Viewer";
          Radio "Page" pages (Some "Yield & Climate");
          Markdown "### Click a region to view EO and crop data";
          Folium (viz.build_base_map sample.geojson);
          Success "Selected Region: Kenya - Rift Valley";
          Selectbox "Select EO variables to plot" (Str <$> eo_vars)
            (Some (Str "ndvi"));
          Pyplot (viz.plot_yield_obs (crop_yield sample.viewer_yield "KE2001"));
          Pyplot (viz.plot_eo_var (eo_df sample.cape_eo "KE2001") "ndvi") ]
    ∧ plot_caches_sound w'
    ∧ choropleth_fig w' = choropleth_fig sample.fresh
    ∧ cache_create_map w' = cache_create_map sample.fresh.
Proof.
  apply (region_click_screen sample.cape_eo sample.viewer_yield
           sample.yield_fcst sample.gdf sample.geojson
           (sample.click (Feature.mk "KE2001" "Kenya" "Rift Valley" "Nakuru"))
           sample.fresh (Feature.mk "KE2001" "Kenya" "Rift Valley" "Nakuru")
           (Region.mk "KE2001" "Kenya" "Rift Valley" "Nakuru" (1 # 2) 36));
    try reflexivity.
  - discriminate.
  - split; intros; discriminate.
Defined.

(** X15: the test [if fnid:] takes an empty region id for no selection:
    after a click on a region whose id is the empty string and that the
    region table knows, the run names the selected region and then still
    prompts to click a region; it filters no table and plots nothing. *)
Theorem empty_region_id_prompt
    (cape_eo : list EOObs.row) (viewer_yield : list YieldObs.row)
    (yield_fcst : list Forecast.row) (gdf : list Region.row)
    (geojson : GeoJSON) (ui : interaction) (w : world)
    (drawing : Feature.properties) (row : Region.row) :
  on_region_page ui →
  last_active_drawing ui = Some drawing →
  Feature.fnid drawing = "" →
  region_row gdf "" = Ok row →
  rerun cape_eo viewer_yield yield_fcst gdf geojson ui w
  = (inl (),
     mkWorld (choropleth_fig w) (cache_plot_yield_obs w)
       (cache_plot_eo_var w) (cache_create_map w)
       [ Title "Sub-Saharan Africa Crop Forecast Viewer";
         Radio "Page" pages (Some "Yield & Climate");
         Markdown "### Click a region to view EO and crop data";
         Folium (viz.build_base_map geojson);
         Success ("Selected Region: " ++ Region.admin0 row ++ " - "
                  ++ Region.admin1 row);
         Info "Click a region on the map to begin." ]).
Proof.
  intros Hpage Hclick Hfnid Hrow. unfold on_region_page in Hpage.
  unfold rerun, main. run_script. rewrite Hpage.
  rewrite decide_True by done.
  unfold yield_climate. run_script. rewrite Hclick, Hfnid, Hrow.
  cbn [screen choropleth_fig cache_plot_yield_obs cache_plot_eo_var
       cache_create_map].
  rewrite (decide_True (P := "" = "")) by done.
  run_script.
  by rewrite (decide_False (P := Some "Yield & Climate"
                                 = Some "Historical Forecasts")).
Qed.

Lemma empty_region_id_prompt_witness :
  let nameless := Feature.mk "" "Kenya" "Lake" "Island" in
  let gdf := Region.mk "" "Kenya" "Lake" "Island" 0 34 :: sample.gdf in
  rerun sample.cape_eo sample.viewer_yield sample.yield_fcst gdf
    sample.geojson (sample.click nameless) sample.fresh
  = (inl (),
     mkWorld None [] [] []
       [ Title "Sub-Saharan Africa Crop Forecast Viewer";
         Radio "Page" pages (Some "Yield & Climate");
         Markdown "### Click a region to view EO and crop data";
         Folium (viz.build_base_map sample.geojson);
         Success "Selected Region: Kenya - Lake";
         Info "Click a region on the map to begin." ]).
Proof.
  intros nameless gdf.
  apply (empty_region_id_prompt sample.cape_eo sample.viewer_yield
           sample.yield_fcst gdf sample.geojson (sample.click nameless)
           sample.fresh nameless (Region.mk "" "Kenya" "Lake" "Island" 0 34));
    reflexivity.
Defined.

(** X16: a run of the Yield & Climate page ends in one of two ways only:
    normally, or on the IndexError of the region lookup; it ends normally
    exactly when nothing was clicked or the region table has a row with
    the clicked region id.  Neither the filters nor the plots nor their
    caches ever make it fail. *)
Theorem region_page_outcome
    (cape_eo : list EOObs.row) (viewer_yield : list YieldObs.row)
    (yield_fcst : list Forecast.row) (gdf : list Region.row)
    (geojson : GeoJSON) (ui : interaction) (w : world) :
  on_region_page ui →
  let outcome := (rerun cape_eo viewer_yield yield_fcst gdf geojson ui w).1 in
  (outcome = inl ()
   ∨ outcome
     = inr (Crash (IndexError "single positional indexer is out-of-bounds")))
  ∧ (outcome = inl () ↔
     ∀ drawing, last_active_drawing ui = Some drawing →
       ∃ r, r ∈ gdf ∧ Region.fnid r = Feature.fnid drawing).
Proof.
  intros Hpage outcome. subst outcome.
  destruct (last_active_drawing ui) as [drawing|] eqn:Hclick.
  - destruct (region_row gdf (Feature.fnid drawing)) as [row|e] eqn:Hrow.
    + assert ((rerun cape_eo viewer_yield yield_fcst gdf geojson ui w).1
              = inl ()) as Hend.
      { unfold on_region_page in Hpage.
        unfold rerun, main. run_script. rewrite Hpage.
        rewrite decide_True by done.
        unfold yield_climate. run_script. rewrite Hclick, Hrow.
        cbn [screen choropleth_fig cache_plot_yield_obs cache_plot_eo_var
             cache_create_map].
        rewrite (decide_False (P := Some "Yield & Climate"
                                    = Some "Historical Forecasts"))
          by discriminate.
        case_decide; [done|].
        match goal with
        | |- context [display_region ?eo ?vy ?u ?f ?w0] =>
          destruct (display_region_returns eo vy u f w0) as [w' ->]
        end.
        done. }
      split; [by left|]. split; [|done].
      intros _ d Hd. injection Hd as <-.
      apply region_row_found in Hrow as [Hin Hf]. by exists row.
    + apply region_row_absent in Hrow as [-> Habsent].
      destruct (region_lookup_absent_raises cape_eo viewer_yield yield_fcst
                  gdf geojson ui w drawing Hpage Hclick Habsent)
        as (w' & -> & _).
      split; [by right|]. split; [done|].
      intros Hfound. destruct (Hfound drawing eq_refl) as (r & Hin & Hf).
      by destruct (Habsent r Hin).
  - assert ((rerun cape_eo viewer_yield yield_fcst gdf geojson ui w).1
            = inl ()) as ->.
    { unfold on_region_page in Hpage.
      unfold rerun, main. run_script. rewrite Hpage.
      rewrite decide_True by done.
      unfold yield_climate. run_script. rewrite Hclick.
      cbn [screen choropleth_fig cache_plot_yield_obs cache_plot_eo_var
           cache_create_map].
      by rewrite (decide_False (P := Some "Yield & Climate"
                                     = Some "Historical Forecasts")). }
    split; [by left|]. split; [|done]. intros _ d Hd. discriminate Hd.
Qed.

Lemma region_page_outcome_witness :
  let known := sample.click (Feature.mk "KE2002" "Kenya" "Coast" "Kilifi") in
  let outcome := (sample.rerun known sample.fresh).1 in
  (outcome = inl ()
   ∨ outcome
     = inr (Crash (IndexError "single positional indexer is out-of-bounds")))
  ∧ (outcome = inl () ↔
     ∀ drawing, last_active_drawing known = Some drawing →
       ∃ r, r ∈ sample.gdf ∧ Region.fnid r = Feature.fnid drawing).
Proof.
  intros known.
  apply (region_page_outcome sample.cape_eo sample.viewer_yield
           sample.yield_fcst sample.gdf sample.geojson known sample.fresh).
  reflexivity.
Defined.

(** ** What a finished run of the forecast page shows *)

(** X17: a run of the forecast page for a selection with available years
    draws, in this order, the variable, country, season, year, model and
    lead selectors and the update button, and after them the stored
    choropleth exactly when one is stored; without a click on the button
    neither the stored artifact nor the cache changes, and with a click
    the stored artifact is the figure the cached [create_map] returned
    for the selection. *)
Theorem forecast_page_screen
    (cape_eo : list EOObs.row) (viewer_yield : list YieldObs.row)
    (yield_fcst : list Forecast.row) (gdf : list Region.row)
    (geojson : GeoJSON) (ui : interaction) (w : world) (lo hi : Z) :
  let selected_country := st.choice (countries yield_fcst) (pick_country ui) in
  let fnids := country_fnids yield_fcst selected_country in
  let selected_season := st.choice (seasons yield_fcst fnids) (pick_season ui) in
  let a := selected_args yield_fcst gdf geojson ui lo hi in
  on_forecast_page ui →
  Series_min (yrs yield_fcst fnids selected_season) = Some lo →
  Series_max (yrs yield_fcst fnids selected_season) = Some hi →
  ∃ w',
    rerun cape_eo viewer_yield yield_fcst gdf geojson ui w = (inl (), w')
    ∧ screen w' =
        [ Title "Sub-Saharan Africa Crop Forecast Viewer";
          Radio "Page" pages (Some "Historical Forecasts");
          Markdown "### View Historical Forecast and Error";
          Selectbox "Variable" (Str <$> variables)
            (Str <$> viz.selected_variable a);
          Selectbox "Country" (Str <$> countries yield_fcst)
            (Str <$> selected_country);
          Selectbox "Season" (Str <$> seasons yield_fcst fnids)
            (Str <$> selected_season);
          Selectbox "Year" (Int <$> year_range lo hi)
            (Int <$> viz.selected_year a);
          Selectbox "Model" (Str <$> models yield_fcst)
            (Str <$> viz.selected_model a);
          Selectbox "Lead" (Int <$> leads yield_fcst)
            (Int <$> viz.selected_lead a);
          Button "Update Map" (update_clicked ui) ]
        ++ match artifact w' with
           | Some fig => [PlotlyChart fig]
           | None => []
           end
    ∧ if update_clicked ui
      then ∃ fig s,
             cached_create_map (cache_create_map w) a
               = (Ok fig, cache_create_map w', s)
             ∧ artifact w' = Some fig
      else artifact w' = artifact w ∧ cache_create_map w' = cache_create_map w.
Proof. apply forecast_page_run. Qed.

Lemma forecast_page_screen_witness :
  ∃ w',
    sample.rerun (sample.kenya_long_2019 false) sample.fresh = (inl (), w')
    ∧ screen w' =
        [ Title "Sub-Saharan Africa Crop Forecast Viewer";
          Radio "Page" pages (Some "Historical Forecasts");
          Markdown "### View Historical Forecast and Error";
          Selectbox "Variable" (Str <$> variables) (Some (Str "yield_fcst"));
          Selectbox "Country" [Str "Kenya"; Str "Somalia"] (Some (Str "Kenya"));
          Selectbox "Season" [Str "long"; Str "short"] (Some (Str "long"));
          Selectbox "Year" [Int 2018; Int 2019; Int 2020] (Some (Int 2019));
          Selectbox "Model" [Str "LR"; Str "XGB"] (Some (Str "XGB"));
          Selectbox "Lead" [Int 1; Int 2] (Some (Int 1));
          Button "Update Map" false ]
        ++ match artifact w' with
           | Some fig => [PlotlyChart fig]
           | None => []
           end
    ∧ (artifact w' = artifact sample.fresh
       ∧ cache_create_map w' = cache_create_map sample.fresh).
Proof.
  exact (forecast_page_screen sample.cape_eo sample.viewer_yield
           sample.yield_fcst sample.gdf sample.geojson
           (sample.kenya_long_2019 false) sample.fresh 2018 2020
           eq_refl eq_refl eq_refl).
Defined.
